(** * A FastAPI prototype: registration, login, bearer tokens and owned items

    Shallow embedding of [main.py].  The two module-level dictionaries
    [users_db] and [items_db] are Python dictionaries: finite maps that
    remember the order in which their keys were inserted.  They are modelled
    as association lists with Python's update discipline (assigning to a key
    that is present replaces the value in place, assigning to a new key
    appends).  Handlers are state transformers over the pair of dictionaries
    that return a value, raise an [HTTPException], or let another exception
    escape. *)

From Stdlib Require Import ZArith Ascii String Floats.SpecFloat.
From stdpp Require Import base tactics option strings numbers list.

Local Open Scope Z_scope.

(** ** Python dictionaries *)

Module PyDict.
Section Dict.
Context {K V : Type} `{EqDecision K}.

Definition t : Type := list (K * V).

Definition empty : t := [].

(** [d.get(k)] *)
Fixpoint get (d : t) (k : K) : option V :=
  match d with
  | [] => None
  | (k', v) :: d' => if decide (k' = k) then Some v else get d' k
  end.

(** [k in d] *)
Definition contains (d : t) (k : K) : bool :=
  match get d k with Some _ => true | None => false end.

(** [d[k] = v] *)
Fixpoint set (d : t) (k : K) (v : V) : t :=
  match d with
  | [] => [(k, v)]
  | (k', v') :: d' =>
      if decide (k' = k) then (k, v) :: d' else (k', v') :: set d' k v
  end.

(** [del d[k]] *)
Fixpoint del (d : t) (k : K) : t :=
  match d with
  | [] => []
  | (k', v') :: d' =>
      if decide (k' = k) then d' else (k', v') :: del d' k
  end.

(** [d.keys()], [d.values()] and [len(d)] *)
Definition keys (d : t) : list K := d.*1.
Definition values (d : t) : list V := d.*2.
Definition len (d : t) : Z := Z.of_nat (length d).

End Dict.
Global Arguments t : clear implicits.
End PyDict.

(** ** Python list slicing, [l[start:stop]] *)

Definition slice_index (n i : Z) : Z :=
  if i <? 0 then Z.max (i + n) 0 else Z.min i n.

Definition py_slice {A : Type} (l : list A) (start stop : Z) : list A :=
  let n := Z.of_nat (length l) in
  let lo := slice_index n start in
  let hi := slice_index n stop in
  take (Z.to_nat (hi - lo)) (drop (Z.to_nat lo) l).

(** ** Time *)

(** Instants and durations are counted in whole seconds, the resolution of
    the [exp] claim of a token. *)
Definition datetime : Type := Z.
Definition timedelta : Type := Z.
Definition minutes (m : Z) : timedelta := 60 * m.

(** Python's truth value of an optional duration, as tested by
    [if expires_delta:]: [None] is false, and so is [timedelta(0)]. *)
Definition truthy (d : option timedelta) : bool :=
  match d with
  | None => false
  | Some delta => negb (delta =? 0)
  end.

Definition float : Type := spec_float.

(** ** Pydantic models and stored rows *)

Module UserCreate.
Record t : Type := mk {
  username : string;
  email : string;
  full_name : option string;
  password : string
}.
End UserCreate.

(** The dictionary kept in [users_db] for one user: [user.dict()] with
    [password] replaced by its hash, plus [id] and [created_at]. *)
Module UserRow.
Record t : Type := mk {
  username : string;
  email : string;
  full_name : option string;
  password : string;
  id : Z;
  created_at : datetime
}.
End UserRow.

(** [class User(UserBase)]: the response model of the user endpoints. *)
Module User.
Record t : Type := mk {
  username : string;
  email : string;
  full_name : option string;
  id : Z;
  is_active : bool;
  created_at : datetime
}.
End User.

Module UserLogin.
Record t : Type := mk {
  username : string;
  password : string
}.
End UserLogin.

Module ItemCreate.
Record t : Type := mk {
  title : string;
  description : option string;
  price : float
}.
End ItemCreate.

(** The dictionary kept in [items_db] for one item; [class Item(ItemBase)]
    declares the same six fields. *)
Module Item.
Record t : Type := mk {
  title : string;
  description : option string;
  price : float;
  id : Z;
  owner_id : Z;
  created_at : datetime
}.
End Item.

(** ** Exceptions and results *)

Record HTTPException : Type := mkHTTPException {
  status_code : Z;
  detail : string;
  headers : list (string * string)
}.

Definition HTTP_400_BAD_REQUEST : Z := 400.
Definition HTTP_401_UNAUTHORIZED : Z := 401.
Definition HTTP_403_FORBIDDEN : Z := 403.
Definition HTTP_404_NOT_FOUND : Z := 404.

(** A call returns, raises an [HTTPException], or raises some other
    exception, which no handler of [main.py] catches; [exc] is the name of
    its class. *)
Inductive result (A : Type) : Type :=
| Return (a : A)
| Raise (e : HTTPException)
| Uncaught (exc : string).
Global Arguments Return {A} a.
Global Arguments Raise {A} e.
Global Arguments Uncaught {A} exc.

(** ** The process state: the two mock databases *)

Record db : Type := mkdb {
  users_db : PyDict.t string UserRow.t;
  items_db : PyDict.t Z Item.t
}.

Definition initial : db := {| users_db := PyDict.empty; items_db := PyDict.empty |}.

(** A handler runs against the databases; what it wrote before raising
    stays written. *)
Definition M (A : Type) : Type := db -> result A * db.

Definition ret {A : Type} (a : A) : M A := fun s => (Return a, s).

Definition raise {A : Type} (e : HTTPException) : M A := fun s => (Raise e, s).

Definition bind {A B : Type} (m : M A) (f : A -> M B) : M B :=
  fun s =>
    match m s with
    | (Return a, s') => f a s'
    | (Raise e, s') => (Raise e, s')
    | (Uncaught exc, s') => (Uncaught exc, s')
    end.

(** A call that does not touch the databases. *)
Definition lift {A : Type} (r : result A) : M A := fun s => (r, s).

Notation "'do' x <- m ; k" := (bind m (fun x => k))
  (at level 10, x name, m at level 100, k at level 200).
Notation "m ;; k" := (bind m (fun _ => k))
  (at level 100, k at level 200, right associativity).

Definition read_users : M (PyDict.t string UserRow.t) := fun s => (Return (users_db s), s).
Definition read_items : M (PyDict.t Z Item.t) := fun s => (Return (items_db s), s).
Definition write_users (d : PyDict.t string UserRow.t) : M unit :=
  fun s => (Return tt, {| users_db := d; items_db := items_db s |}).
Definition write_items (d : PyDict.t Z Item.t) : M unit :=
  fun s => (Return tt, {| users_db := users_db s; items_db := d |}).

(** ** External collaborators *)

(** [pwd_context = CryptContext(schemes=["bcrypt"])] of passlib.  Hashing
    draws a fresh salt on every call; the salt is made an explicit input.
    Either call may raise instead of returning: passlib's bcrypt refuses a
    password that holds a NUL byte with [PasswordValueError]. *)
Module CryptContext.
Record t : Type := mk {
  hash : string -> string -> result string;
  verify : string -> string -> result bool
}.
End CryptContext.

(** The [jwt] module (PyJWT).  A token is either a compact serialisation
    carrying a payload and a signature, or any other string.  Of the payload
    dictionary the two claims that [main.py] writes and reads are kept,
    [sub] and [exp], each of which may be missing.  Signatures are symbolic:
    the HS256 tag computed under [key] over [msg], or anything else.  The
    algorithm is [ALGORITHM = "HS256"] in both calls of [main.py] and is
    left out. *)
Module Jwt.

Record claims : Type := mkclaims {
  sub : option string;
  exp : option datetime
}.

Inductive signature : Type :=
| Mac (key : string) (msg : claims)
| NoMac (raw : string).

Inductive t : Type :=
| Compact (payload : claims) (sig : signature)
| Opaque (raw : string).

Inductive PyJWTError : Type :=
| DecodeError
| InvalidSignatureError
| ExpiredSignatureError.

Global Instance claims_eq_dec : EqDecision claims.
Proof. solve_decision. Defined.

Global Instance signature_eq_dec : EqDecision signature.
Proof. solve_decision. Defined.

(** Modelled from the spec: [jwt.encode] of the PyJWT package, which is not
    part of the repository; it produces a signed token embedding the
    payload. *)
Definition encode (payload : claims) (key : string) : t :=
  Compact payload (Mac key payload).

Definition expired (payload : claims) (now : datetime) : bool :=
  match exp payload with
  | Some e => e <=? now
  | None => false
  end.

(** Modelled from the spec: [jwt.decode] of the PyJWT package, which is not
    part of the repository; it fails if the structure is malformed, if the
    signature does not match, or if the embedded expiry is in the past, and
    returns the payload otherwise.  [now] is the time of the call. *)
Definition decode (now : datetime) (token : t) (key : string) : PyJWTError + claims :=
  match token with
  | Opaque _ => inl DecodeError
  | Compact payload sig =>
      if decide (sig = Mac key payload) then
        if expired payload now then inl ExpiredSignatureError else inr payload
      else inl InvalidSignatureError
  end.

End Jwt.

Module Token.
Record t : Type := mk {
  access_token : Jwt.t;
  token_type : string
}.
End Token.

(** ** JSON bodies *)

#[warnings="-register-all"]
Inductive json : Type :=
| JNull
| JBool (b : bool)
| JInt (n : Z)
| JFloat (x : float)
| JString (s : string)
| JDatetime (t : datetime)
| JToken (t : Jwt.t)
| JArray (l : list json)
| JObject (fields : list (string * json)).

(** The field names of a JSON object. *)
Definition json_keys (j : json) : list string :=
  match j with
  | JObject fields => fields.*1
  | _ => []
  end.

(** ** The application *)

Definition ACCESS_TOKEN_EXPIRE_MINUTES : Z := 30.

Section Service.

(** [pwd_context] and the secret read from the environment at start-up. *)
Variable pwd_context : CryptContext.t.
Variable SECRET_KEY : string.

Definition verify_password (plain_password hashed_password : string) : result bool :=
  CryptContext.verify pwd_context plain_password hashed_password.

Definition get_password_hash (salt password : string) : result string :=
  CryptContext.hash pwd_context salt password.

(** [now] is the value of [datetime.utcnow()]. *)
Definition create_access_token (now : datetime) (data : Jwt.claims)
    (expires_delta : option timedelta) : Jwt.t :=
  let to_encode := data in
  let expire :=
    match expires_delta with
    | Some delta => if truthy expires_delta then now + delta else now + minutes 15
    | None => now + minutes 15
    end in
  let to_encode := {| Jwt.sub := Jwt.sub to_encode; Jwt.exp := Some expire |} in
  Jwt.encode to_encode SECRET_KEY.

Definition credentials_exception : HTTPException :=
  {| status_code := HTTP_401_UNAUTHORIZED;
     detail := "Could not validate credentials";
     headers := [("WWW-Authenticate", "Bearer")] |}.

(** The [try] block of [get_current_user]: decode the token and read its
    [sub] claim. *)
Definition token_subject (now : datetime) (credentials : Jwt.t) : result string :=
  match Jwt.decode now credentials SECRET_KEY with
  | inr payload =>
      match Jwt.sub payload with
      | None => Raise credentials_exception
      | Some username => Return username
      end
  | inl _ => Raise credentials_exception
  end.

Definition get_current_user (now : datetime) (credentials : Jwt.t) : M UserRow.t :=
  do username <- lift (token_subject now credentials);
  do users <- read_users;
  match PyDict.get users username with
  | None =>
      raise {| status_code := HTTP_401_UNAUTHORIZED;
               detail := "User not found";
               headers := [("WWW-Authenticate", "Bearer")] |}
  | Some user => ret user
  end.

Definition register (now : datetime) (salt : string) (user : UserCreate.t) : M UserRow.t :=
  do users <- read_users;
  if PyDict.contains users (UserCreate.username user) then
    raise {| status_code := HTTP_400_BAD_REQUEST;
             detail := "Username already registered";
             headers := [] |}
  else
    do hashed_password <- lift (get_password_hash salt (UserCreate.password user));
    let user_data :=
      {| UserRow.username := UserCreate.username user;
         UserRow.email := UserCreate.email user;
         UserRow.full_name := UserCreate.full_name user;
         UserRow.password := hashed_password;
         UserRow.id := PyDict.len users + 1;
         UserRow.created_at := now |} in
    write_users (PyDict.set users (UserCreate.username user) user_data) ;;
    ret user_data.

Definition login (now : datetime) (user_credentials : UserLogin.t) : M Token.t :=
  do users <- read_users;
  let user := PyDict.get users (UserLogin.username user_credentials) in
  let unauthorized :=
    {| status_code := HTTP_401_UNAUTHORIZED;
       detail := "Incorrect username or password";
       headers := [("WWW-Authenticate", "Bearer")] |} in
  match user with
  | None => raise unauthorized
  | Some row =>
      do verified <-
        lift (verify_password (UserLogin.password user_credentials) (UserRow.password row));
      if negb verified
      then raise unauthorized
      else
        let access_token_expires := minutes ACCESS_TOKEN_EXPIRE_MINUTES in
        let access_token :=
          create_access_token now
            {| Jwt.sub := Some (UserRow.username row); Jwt.exp := None |}
            (Some access_token_expires) in
        ret {| Token.access_token := access_token; Token.token_type := "bearer" |}
  end.

Definition read_users_me (current_user : UserRow.t) : M UserRow.t :=
  ret current_user.

Definition get_users : M (list UserRow.t) :=
  do users <- read_users;
  ret (PyDict.values users).

Definition create_item (now : datetime) (item : ItemCreate.t) (current_user : UserRow.t) : M Item.t :=
  do items <- read_items;
  let item_data :=
    {| Item.title := ItemCreate.title item;
       Item.description := ItemCreate.description item;
       Item.price := ItemCreate.price item;
       Item.id := PyDict.len items + 1;
       Item.owner_id := UserRow.id current_user;
       Item.created_at := now |} in
  write_items (PyDict.set items (Item.id item_data) item_data) ;;
  ret item_data.

Definition get_items (skip limit : Z) : M (list Item.t) :=
  do db_items <- read_items;
  let items := PyDict.values db_items in
  ret (py_slice items skip (skip + limit)).

Definition item_not_found : HTTPException :=
  {| status_code := HTTP_404_NOT_FOUND; detail := "Item not found"; headers := [] |}.

Definition not_enough_permissions : HTTPException :=
  {| status_code := HTTP_403_FORBIDDEN; detail := "Not enough permissions"; headers := [] |}.

Definition get_item (item_id : Z) : M Item.t :=
  do items <- read_items;
  match PyDict.get items item_id with
  | None => raise item_not_found
  | Some row => ret row
  end.

Definition update_item (item_id : Z) (item : ItemCreate.t) (current_user : UserRow.t) : M Item.t :=
  do items <- read_items;
  match PyDict.get items item_id with
  | None => raise item_not_found
  | Some stored =>
      if negb (bool_decide (Item.owner_id stored = UserRow.id current_user)) then
        raise not_enough_permissions
      else
        let item_data :=
          {| Item.title := ItemCreate.title item;
             Item.description := ItemCreate.description item;
             Item.price := ItemCreate.price item;
             Item.id := item_id;
             Item.owner_id := UserRow.id current_user;
             Item.created_at := Item.created_at stored |} in
        write_items (PyDict.set items item_id item_data) ;;
        ret item_data
  end.

Definition delete_item (item_id : Z) (current_user : UserRow.t) : M string :=
  do items <- read_items;
  match PyDict.get items item_id with
  | None => raise item_not_found
  | Some stored =>
      if negb (bool_decide (Item.owner_id stored = UserRow.id current_user)) then
        raise not_enough_permissions
      else
        write_items (PyDict.del items item_id) ;;
        ret "Item deleted successfully"
  end.

(** *** Routes: dependencies, handlers and response models *)

(** [security = HTTPBearer()]: a request without bearer credentials is
    refused before the handler runs. *)
Definition security (authorization : option Jwt.t) : M Jwt.t :=
  match authorization with
  | Some credentials => ret credentials
  | None =>
      raise {| status_code := HTTP_403_FORBIDDEN;
               detail := "Not authenticated";
               headers := [] |}
  end.

Definition Depends_get_current_user (now : datetime) (authorization : option Jwt.t) : M UserRow.t :=
  do credentials <- security authorization;
  get_current_user now credentials.

(** [response_model=User]: the returned dictionary is read into the fields
    that [class User] declares; [is_active] takes its default. *)
Definition response_model_User (row : UserRow.t) : User.t :=
  {| User.username := UserRow.username row;
     User.email := UserRow.email row;
     User.full_name := UserRow.full_name row;
     User.id := UserRow.id row;
     User.is_active := true;
     User.created_at := UserRow.created_at row |}.

Definition json_optional (o : option string) : json :=
  match o with
  | Some s => JString s
  | None => JNull
  end.

Definition User_json (u : User.t) : json :=
  JObject
    [("username", JString (User.username u));
     ("email", JString (User.email u));
     ("full_name", json_optional (User.full_name u));
     ("id", JInt (User.id u));
     ("is_active", JBool (User.is_active u));
     ("created_at", JDatetime (User.created_at u))].

Definition Item_json (i : Item.t) : json :=
  JObject
    [("title", JString (Item.title i));
     ("description", json_optional (Item.description i));
     ("price", JFloat (Item.price i));
     ("id", JInt (Item.id i));
     ("owner_id", JInt (Item.owner_id i));
     ("created_at", JDatetime (Item.created_at i))].

Definition Token_json (t : Token.t) : json :=
  JObject
    [("access_token", JToken (Token.access_token t));
     ("token_type", JString (Token.token_type t))].

Inductive request : Type :=
| POST_register (body : UserCreate.t)
| POST_login (body : UserLogin.t)
| GET_users_me (authorization : option Jwt.t)
| GET_users
| POST_items (authorization : option Jwt.t) (body : ItemCreate.t)
| GET_items (skip limit : option Z)
| GET_item (item_id : Z)
| PUT_item (item_id : Z) (authorization : option Jwt.t) (body : ItemCreate.t)
| DELETE_item (item_id : Z) (authorization : option Jwt.t).

(** One request against the application.  [now] is the clock and [salt] the
    randomness drawn while it is served.  Field constraints of the request
    bodies are checked by pydantic before a handler runs and no handler
    looks at them again: bodies range over all values of their types.  The
    outcome is the serialised return value of the handler or the exception
    it raised; how the framework renders a raised exception, the functions
    registered with [app.exception_handler] included, is not modelled. *)
Definition app (now : datetime) (salt : string) (req : request) : M json :=
  match req with
  | POST_register body =>
      do r <- register now salt body;
      ret (User_json (response_model_User r))
  | POST_login body =>
      do r <- login now body;
      ret (Token_json r)
  | GET_users_me authorization =>
      do current_user <- Depends_get_current_user now authorization;
      do r <- read_users_me current_user;
      ret (User_json (response_model_User r))
  | GET_users =>
      do r <- get_users;
      ret (JArray (map (fun row => User_json (response_model_User row)) r))
  | POST_items authorization body =>
      do current_user <- Depends_get_current_user now authorization;
      do r <- create_item now body current_user;
      ret (Item_json r)
  | GET_items skip limit =>
      do r <- get_items (default 0 skip) (default 10 limit);
      ret (JArray (map Item_json r))
  | GET_item item_id =>
      do r <- get_item item_id;
      ret (Item_json r)
  | PUT_item item_id authorization body =>
      do current_user <- Depends_get_current_user now authorization;
      do r <- update_item item_id body current_user;
      ret (Item_json r)
  | DELETE_item item_id authorization =>
      do current_user <- Depends_get_current_user now authorization;
      do r <- delete_item item_id current_user;
      ret (JObject [("message", JString r)])
  end.

(** The states the process can be in: the empty databases at start-up and
    whatever serving a request leaves behind. *)
Inductive reachable : db -> Prop :=
| reachable_initial : reachable initial
| reachable_step (s : db) (now : datetime) (salt : string) (req : request) :
    reachable s -> reachable (app now salt req s).2.

End Service.

(** * Vocabulary of the properties *)

(** ** Well-formed databases *)

(** Keys of [items_db] are pairwise distinct and every stored item carries
    its key as [id]. *)
Definition items_wf (d : PyDict.t Z Item.t) : Prop :=
  NoDup (PyDict.keys d) ∧ ∀ k row, (k, row) ∈ d -> Item.id row = k.

(** Keys of [users_db] are pairwise distinct; the user inserted in position
    [i] is stored under its username and has id [i + 1]. *)
Definition users_wf (d : PyDict.t string UserRow.t) : Prop :=
  NoDup (PyDict.keys d) ∧
  ∀ (i : nat) k row, d !! i = Some (k, row) ->
    UserRow.username row = k ∧ UserRow.id row = Z.of_nat i + 1.

Definition db_wf (s : db) : Prop := users_wf (users_db s) ∧ items_wf (items_db s).

(** ** Tokens *)

Definition embedded_subject (token : Jwt.t) : option string :=
  match token with
  | Jwt.Compact payload _ => Jwt.sub payload
  | Jwt.Opaque _ => None
  end.

Definition embedded_expiry (token : Jwt.t) : option datetime :=
  match token with
  | Jwt.Compact payload _ => Jwt.exp payload
  | Jwt.Opaque _ => None
  end.

(** A token is structurally malformed when it is not a compact
    serialisation. *)
Definition malformed (token : Jwt.t) : Prop :=
  match token with
  | Jwt.Compact _ _ => False
  | Jwt.Opaque _ => True
  end.

(** A compact token whose payload has no [sub] claim. *)
Definition no_subject (token : Jwt.t) : Prop :=
  match token with
  | Jwt.Compact payload _ => Jwt.sub payload = None
  | Jwt.Opaque _ => False
  end.

Definition signature_matches (key : string) (token : Jwt.t) : Prop :=
  ∃ payload, token = Jwt.Compact payload (Jwt.Mac key payload).

Definition expiry_in_the_past (now : datetime) (token : Jwt.t) : Prop :=
  ∃ e, embedded_expiry token = Some e ∧ e <= now.

(** ** Sequences of requests *)

Record call : Type := mkcall {
  call_now : datetime;
  call_salt : string;
  call_request : request
}.

Definition serve (pwd_context : CryptContext.t) (SECRET_KEY : string)
    (calls : list call) (s : db) : db :=
  foldl (fun s c => (app pwd_context SECRET_KEY (call_now c) (call_salt c) (call_request c) s).2)
    s calls.

(** ** Sample data for the examples *)

(** A stand-in for passlib: the hash is the salt, a dollar sign and the
    password; like passlib's bcrypt, both calls refuse a password that holds
    a NUL byte. *)
Fixpoint after_dollar (s : string) : string :=
  match s with
  | EmptyString => EmptyString
  | String c r => if Ascii.eqb c "$"%char then r else after_dollar r
  end.

Fixpoint has_nul (s : string) : bool :=
  match s with
  | EmptyString => false
  | String c r => Ascii.eqb c zero || has_nul r
  end.

Definition sample_context : CryptContext.t :=
  {| CryptContext.hash := fun salt password =>
       if has_nul password then Uncaught "PasswordValueError"
       else Return (salt +:+ "$" +:+ password);
     CryptContext.verify := fun plain hashed =>
       if has_nul plain then Uncaught "PasswordValueError"
       else Return (String.eqb (after_dollar hashed) plain) |}.

(** A password that is not Alice's and ends in a NUL byte. *)
Definition nul_password : string := "wrongpass" +:+ String zero EmptyString.

(** The default of [os.getenv("SECRET_KEY", ...)]. *)
Definition sample_key : string := "your-secret-key-here".

Definition alice : UserCreate.t :=
  {| UserCreate.username := "alice";
     UserCreate.email := "a@example.com";
     UserCreate.full_name := None;
     UserCreate.password := "longenough1" |}.

Definition bob : UserCreate.t :=
  {| UserCreate.username := "bob";
     UserCreate.email := "b@example.com";
     UserCreate.full_name := Some "Bob";
     UserCreate.password := "longenough2" |}.

Definition alice_row : UserRow.t :=
  {| UserRow.username := "alice";
     UserRow.email := "a@example.com";
     UserRow.full_name := None;
     UserRow.password := "s1$longenough1";
     UserRow.id := 1;
     UserRow.created_at := 100 |}.

Definition bob_row : UserRow.t :=
  {| UserRow.username := "bob";
     UserRow.email := "b@example.com";
     UserRow.full_name := Some "Bob";
     UserRow.password := "s2$longenough2";
     UserRow.id := 2;
     UserRow.created_at := 110 |}.

(** The bearer token [login] hands to a user at time [now]. *)
Definition bearer (now : datetime) (username : string) : option Jwt.t :=
  Some (create_access_token sample_key now
          {| Jwt.sub := Some username; Jwt.exp := None |}
          (Some (minutes ACCESS_TOKEN_EXPIRE_MINUTES))).

(** 2.5 and 4.0 as binary floats *)
Definition widget : ItemCreate.t :=
  {| ItemCreate.title := "Widget";
     ItemCreate.description := None;
     ItemCreate.price := S754_finite false 5 (-1) |}.

Definition gadget : ItemCreate.t :=
  {| ItemCreate.title := "Gadget";
     ItemCreate.description := Some "second";
     ItemCreate.price := S754_finite false 1 2 |}.

Definition gizmo : ItemCreate.t :=
  {| ItemCreate.title := "Gizmo";
     ItemCreate.description := None;
     ItemCreate.price := S754_finite false 1 2 |}.

(** Alice and Bob register; Alice logs in and creates two items. *)
Definition two_items : list call :=
  [ mkcall 100 "s1" (POST_register alice);
    mkcall 110 "s2" (POST_register bob);
    mkcall 120 "" (POST_login {| UserLogin.username := "alice"; UserLogin.password := "longenough1" |});
    mkcall 130 "" (POST_items (bearer 120 "alice") widget);
    mkcall 140 "" (POST_items (bearer 120 "alice") gadget) ].

Definition two_items_db : db := serve sample_context sample_key two_items initial.

(** Then Alice deletes her first item. *)
Definition one_deleted : list call :=
  two_items ++ [ mkcall 150 "" (DELETE_item 1 (bearer 120 "alice")) ].

Definition one_deleted_db : db := serve sample_context sample_key one_deleted initial.

Definition widget_row : Item.t :=
  {| Item.title := "Widget";
     Item.description := None;
     Item.price := S754_finite false 5 (-1);
     Item.id := 1;
     Item.owner_id := 1;
     Item.created_at := 130 |}.

Definition gadget_row : Item.t :=
  {| Item.title := "Gadget";
     Item.description := Some "second";
     Item.price := S754_finite false 1 2;
     Item.id := 2;
     Item.owner_id := 1;
     Item.created_at := 140 |}.

(** What Bob's [POST /items/] at time 160 stores. *)
Definition gizmo_row : Item.t :=
  {| Item.title := "Gizmo";
     Item.description := None;
     Item.price := S754_finite false 1 2;
     Item.id := 2;
     Item.owner_id := 2;
     Item.created_at := 160 |}.

(** ** Items and their owners *)

(** Every stored item has a positive key and an owner who is a stored
    user. *)
Definition items_owned (s : db) : Prop :=
  ∀ k item, (k, item) ∈ items_db s ->
    1 <= k ∧
    ∃ username row,
      PyDict.get (users_db s) username = Some row ∧ UserRow.id row = Item.owner_id item.

Definition carol : UserCreate.t :=
  {| UserCreate.username := "carol";
     UserCreate.email := "c@example.com";
     UserCreate.full_name := None;
     UserCreate.password := "longenough3" |}.

(** * Properties *)

(** ** Dictionaries *)

Section DictFacts.
Context {K V : Type} `{EqDecision K}.
Implicit Types (d : PyDict.t K V) (k j : K) (v : V).

Lemma get_None_keys d k : PyDict.get d k = None <-> k ∉ PyDict.keys d.
Proof.
  unfold PyDict.keys. induction d as [|[k' v'] d IH]; csimpl.
  - split; [intros _; apply not_elem_of_nil | done].
  - rewrite not_elem_of_cons. destruct (decide (k' = k)) as [->|Hne].
    + split; [done | intros [? _]; done].
    + rewrite IH. split; [intros ?; split; [congruence | done] | intros [_ ?]; done].
Qed.

Lemma get_Some_elem_of d k v : PyDict.get d k = Some v -> (k, v) ∈ d.
Proof.
  induction d as [|[k' v'] d IH]; simpl; [done|].
  destruct (decide (k' = k)) as [->|Hne].
  - intros [= ->]. apply list_elem_of_here.
  - intros Hg. apply list_elem_of_further. auto.
Qed.

Lemma elem_of_get d k v :
  NoDup (PyDict.keys d) -> (k, v) ∈ d -> PyDict.get d k = Some v.
Proof.
  unfold PyDict.keys. induction d as [|[k' v'] d IH]; csimpl.
  - intros _ Hin. by apply elem_of_nil in Hin.
  - intros [Hk Hnd]%NoDup_cons [[= -> ->]|Hin]%elem_of_cons.
    + by rewrite decide_True.
    + destruct (decide (k' = k)) as [->|Hne]; [|auto].
      exfalso. apply Hk. apply (list_elem_of_fmap_2 fst) in Hin. exact Hin.
Qed.

Lemma get_set_eq d k v : PyDict.get (PyDict.set d k v) k = Some v.
Proof.
  induction d as [|[k' v'] d IH]; simpl.
  - by rewrite decide_True.
  - destruct (decide (k' = k)) as [->|Hne]; simpl.
    + by rewrite decide_True.
    + by rewrite decide_False.
Qed.

Lemma get_set_ne d k j v : k ≠ j -> PyDict.get (PyDict.set d k v) j = PyDict.get d j.
Proof.
  intros Hkj. induction d as [|[k' v'] d IH]; simpl.
  - by rewrite decide_False.
  - destruct (decide (k' = k)) as [->|Hne]; simpl.
    + by rewrite !decide_False.
    + by rewrite IH.
Qed.

(** Assigning to a key that is present keeps every key where it is. *)
Lemma keys_set_present d k v :
  is_Some (PyDict.get d k) -> PyDict.keys (PyDict.set d k v) = PyDict.keys d.
Proof.
  unfold PyDict.keys. induction d as [|[k' v'] d IH]; csimpl.
  - intros [? ?]; done.
  - destruct (decide (k' = k)) as [->|Hne]; csimpl; [done|].
    intros Hs. by rewrite IH.
Qed.

(** Assigning to a new key appends. *)
Lemma set_absent d k v : PyDict.get d k = None -> PyDict.set d k v = d ++ [(k, v)].
Proof.
  induction d as [|[k' v'] d IH]; simpl; [done|].
  destruct (decide (k' = k)) as [->|Hne]; [done|].
  intros Hg. by rewrite IH.
Qed.

Lemma length_set_present d k v :
  is_Some (PyDict.get d k) -> length (PyDict.set d k v) = length d.
Proof.
  intros Hs. apply (keys_set_present d k v) in Hs.
  apply (f_equal length) in Hs. unfold PyDict.keys in Hs.
  by rewrite !length_fmap in Hs.
Qed.

Lemma NoDup_keys_set d k v : NoDup (PyDict.keys d) -> NoDup (PyDict.keys (PyDict.set d k v)).
Proof.
  intros Hnd. destruct (PyDict.get d k) as [v0|] eqn:Hg.
  - by rewrite keys_set_present; [|eauto].
  - rewrite set_absent by done. unfold PyDict.keys in *.
    rewrite fmap_app. apply NoDup_app. split; [done|]. split.
    + intros x Hx. csimpl. rewrite list_elem_of_singleton. intros ->.
      by apply get_None_keys in Hg.
    + csimpl. apply NoDup_singleton.
Qed.

Lemma get_del_ne d k j : k ≠ j -> PyDict.get (PyDict.del d k) j = PyDict.get d j.
Proof.
  intros Hkj. induction d as [|[k' v'] d IH]; simpl; [done|].
  destruct (decide (k' = k)) as [->|Hne]; simpl.
  - by rewrite decide_False.
  - by rewrite IH.
Qed.

Lemma get_del_eq d k : NoDup (PyDict.keys d) -> PyDict.get (PyDict.del d k) k = None.
Proof.
  unfold PyDict.keys. induction d as [|[k' v'] d IH]; csimpl; [done|].
  intros [Hk Hnd]%NoDup_cons.
  destruct (decide (k' = k)) as [->|Hne]; simpl.
  - by apply get_None_keys.
  - rewrite decide_False by done. auto.
Qed.

Lemma keys_del_sublist d k : PyDict.keys (PyDict.del d k) `sublist_of` PyDict.keys d.
Proof.
  unfold PyDict.keys. induction d as [|[k' v'] d IH]; csimpl; [done|].
  destruct (decide (k' = k)) as [->|Hne]; csimpl.
  - by apply sublist_cons.
  - by apply sublist_skip.
Qed.

Lemma NoDup_keys_del d k : NoDup (PyDict.keys d) -> NoDup (PyDict.keys (PyDict.del d k)).
Proof. intros Hnd. eapply sublist_NoDup; [done | apply keys_del_sublist]. Qed.

(** The values of a dictionary after a deletion: the old ones, in their
    order, without the one deleted. *)
Lemma values_del_sublist d k : PyDict.values (PyDict.del d k) `sublist_of` PyDict.values d.
Proof.
  unfold PyDict.values. induction d as [|[k' v'] d IH]; csimpl; [done|].
  destruct (decide (k' = k)) as [->|Hne]; csimpl.
  - by apply sublist_cons.
  - by apply sublist_skip.
Qed.

Lemma elem_of_set d k v j w :
  (j, w) ∈ PyDict.set d k v -> (j, w) = (k, v) ∨ (j, w) ∈ d.
Proof.
  induction d as [|[k' v'] d IH]; simpl.
  - intros ?%list_elem_of_singleton. by left.
  - destruct (decide (k' = k)) as [->|Hne].
    + intros [?|?]%elem_of_cons; [by left | right; by apply list_elem_of_further].
    + intros [H|Hin]%elem_of_cons.
      * right. rewrite H. apply list_elem_of_here.
      * destruct (IH Hin); [by left | right; by apply list_elem_of_further].
Qed.

Lemma elem_of_del d k j w : (j, w) ∈ PyDict.del d k -> (j, w) ∈ d.
Proof.
  induction d as [|[k' v'] d IH]; simpl; [done|].
  destruct (decide (k' = k)) as [->|Hne].
  - apply list_elem_of_further.
  - intros [->|Hin]%elem_of_cons; [apply list_elem_of_here|].
    apply list_elem_of_further. auto.
Qed.

Lemma get_Some_lookup d k v : PyDict.get d k = Some v -> ∃ i : nat, d !! i = Some (k, v).
Proof. intros Hg. apply list_elem_of_lookup. by apply get_Some_elem_of. Qed.

End DictFacts.

(** ** What each handler does to the databases *)

Ltac run :=
  unfold bind, ret, raise, lift, read_users, read_items, write_users, write_items; simpl.

Section Effects.
Variable pwd_context : CryptContext.t.
Variable SECRET_KEY : string.

Lemma get_current_user_state now credentials s :
  (get_current_user SECRET_KEY now credentials s).2 = s.
Proof.
  unfold get_current_user. destruct (token_subject _ _ _); run; [|done..].
  by destruct (PyDict.get _ _).
Qed.

Lemma get_current_user_stored now credentials s u :
  (get_current_user SECRET_KEY now credentials s).1 = Return u ->
  ∃ username, PyDict.get (users_db s) username = Some u.
Proof.
  unfold get_current_user. destruct (token_subject _ _ _) as [username| |]; run; [|done..].
  destruct (PyDict.get _ _) eqn:Hg; simpl; [|done].
  intros [= ->]. eauto.
Qed.

Lemma Depends_get_current_user_state now authorization s :
  (Depends_get_current_user SECRET_KEY now authorization s).2 = s.
Proof.
  unfold Depends_get_current_user, security. destruct authorization; run; [|done].
  apply get_current_user_state.
Qed.

Lemma login_state now user_credentials s :
  (login pwd_context SECRET_KEY now user_credentials s).2 = s.
Proof.
  unfold login. run. destruct (PyDict.get _ _); [|done].
  by destruct (verify_password _ _ _) as [[|]| |].
Qed.

Lemma register_state now salt user s :
  (register pwd_context now salt user s).2 = s ∨
  ∃ row,
    PyDict.get (users_db s) (UserCreate.username user) = None ∧
    UserRow.username row = UserCreate.username user ∧
    UserRow.id row = PyDict.len (users_db s) + 1 ∧
    (register pwd_context now salt user s).2 =
      {| users_db := users_db s ++ [(UserCreate.username user, row)];
         items_db := items_db s |}.
Proof.
  unfold register, PyDict.contains. run.
  destruct (PyDict.get _ _) eqn:Hg; simpl; [by left|].
  destruct (get_password_hash _ _ _); simpl; [|by left..].
  right. eexists. split; [done|]. split; [|split]; [| |by rewrite set_absent]; done.
Qed.

Lemma create_item_state now item current_user s :
  let row :=
    {| Item.title := ItemCreate.title item;
       Item.description := ItemCreate.description item;
       Item.price := ItemCreate.price item;
       Item.id := PyDict.len (items_db s) + 1;
       Item.owner_id := UserRow.id current_user;
       Item.created_at := now |} in
  create_item now item current_user s =
    (Return row,
     {| users_db := users_db s;
        items_db := PyDict.set (items_db s) (PyDict.len (items_db s) + 1) row |}).
Proof. reflexivity. Qed.

Lemma update_item_state item_id item current_user s :
  (update_item item_id item current_user s).2 = s ∨
  ∃ row,
    Item.id row = item_id ∧
    (update_item item_id item current_user s).2 =
      {| users_db := users_db s;
         items_db := PyDict.set (items_db s) item_id row |}.
Proof.
  unfold update_item. run. destruct (PyDict.get _ _); simpl; [|by left].
  case_bool_decide; simpl; [|by left].
  right. eexists. split; [|reflexivity]. done.
Qed.

Lemma delete_item_state item_id current_user s :
  (delete_item item_id current_user s).2 = s ∨
  (delete_item item_id current_user s).2 =
    {| users_db := users_db s; items_db := PyDict.del (items_db s) item_id |}.
Proof.
  unfold delete_item. run. destruct (PyDict.get _ _); simpl; [|by left].
  case_bool_decide; simpl; [by right | by left].
Qed.

End Effects.

(** ** Invariants of the reachable states *)

Lemma items_wf_set d k row : Item.id row = k -> items_wf d -> items_wf (PyDict.set d k row).
Proof.
  intros Hid [Hnd Hids]. split; [by apply NoDup_keys_set|].
  intros j w [[= -> ->]|Hin]%elem_of_set; [done | by apply Hids].
Qed.

Lemma items_wf_del d k : items_wf d -> items_wf (PyDict.del d k).
Proof.
  intros [Hnd Hids]. split; [by apply NoDup_keys_del|].
  intros j w Hin%elem_of_del. by apply Hids.
Qed.

Lemma users_wf_append d k row :
  PyDict.get d k = None -> UserRow.username row = k ->
  UserRow.id row = PyDict.len d + 1 ->
  users_wf d -> users_wf (d ++ [(k, row)]).
Proof.
  intros Hg Hname Hid [Hnd Hrows]. split.
  - rewrite <- (set_absent d k row) by done. by apply NoDup_keys_set.
  - intros i j w Hi. apply lookup_app_Some in Hi as [Hi|[Hlen Hi]]; [by apply Hrows|].
    apply list_lookup_singleton_Some in Hi as [Hz [= <- <-]].
    split; [done|]. rewrite Hid. unfold PyDict.len. lia.
Qed.

(** Two stored users with different usernames have different ids. *)
Lemma users_wf_ids d a b ua ub :
  users_wf d -> PyDict.get d a = Some ua -> PyDict.get d b = Some ub ->
  a ≠ b -> UserRow.id ua ≠ UserRow.id ub.
Proof.
  intros [Hnd Hrows] [i Hi]%get_Some_lookup [j Hj]%get_Some_lookup Hab Hid.
  destruct (Hrows _ _ _ Hi) as [_ Hia]. destruct (Hrows _ _ _ Hj) as [_ Hjb].
  assert (i = j) as -> by lia. congruence.
Qed.

Lemma bind_ret_state {A B : Type} (m : M A) (f : A -> B) s :
  (bind m (fun x => ret (f x)) s).2 = (m s).2.
Proof. unfold bind, ret. by destruct (m s) as [[?|?|?] ?]. Qed.

Section Reachable.
Variable pwd_context : CryptContext.t.
Variable SECRET_KEY : string.

Lemma Depends_bind_state {A : Type} now authorization (f : UserRow.t -> M A) s :
  (bind (Depends_get_current_user SECRET_KEY now authorization) f s).2 = s ∨
  ∃ current_user,
    (bind (Depends_get_current_user SECRET_KEY now authorization) f s).2 = (f current_user s).2.
Proof.
  unfold bind.
  pose proof (Depends_get_current_user_state SECRET_KEY now authorization s) as Hs.
  destruct (Depends_get_current_user _ _ _ _) as [[u|e|exc] s']; simpl in Hs; subst s'.
  - right. by exists u.
  - by left.
  - by left.
Qed.

Lemma db_wf_initial : db_wf initial.
Proof.
  split; split; try apply NoDup_nil_2.
  - intros i k row Hi. by destruct i.
  - intros k row Hin. by apply elem_of_nil in Hin.
Qed.

Lemma db_wf_register now salt user s :
  db_wf s -> db_wf (register pwd_context now salt user s).2.
Proof.
  intros [Hu Hi].
  destruct (register_state pwd_context now salt user s) as [->|(row & Hg & Hn & Hid & ->)];
    [done|].
  split; [|done]. by apply users_wf_append.
Qed.

Lemma db_wf_create_item now item current_user s :
  db_wf s -> db_wf (create_item now item current_user s).2.
Proof.
  intros [Hu Hi]. rewrite create_item_state. split; [done|].
  by apply items_wf_set.
Qed.

Lemma db_wf_update_item item_id item current_user s :
  db_wf s -> db_wf (update_item item_id item current_user s).2.
Proof.
  intros [Hu Hi].
  destruct (update_item_state item_id item current_user s) as [->|(row & Hid & ->)];
    [done|].
  split; [done|]. by apply items_wf_set.
Qed.

Lemma db_wf_delete_item item_id current_user s :
  db_wf s -> db_wf (delete_item item_id current_user s).2.
Proof.
  intros [Hu Hi].
  destruct (delete_item_state item_id current_user s) as [->| ->]; [done|].
  split; [done|]. by apply items_wf_del.
Qed.

Lemma db_wf_app now salt req s :
  db_wf s -> db_wf (app pwd_context SECRET_KEY now salt req s).2.
Proof.
  intros Hwf. destruct req; simpl.
  - rewrite bind_ret_state. by apply db_wf_register.
  - rewrite bind_ret_state. by rewrite login_state.
  - destruct (Depends_bind_state now authorization
      (fun current_user => do r <- read_users_me current_user;
                           ret (User_json (response_model_User r))) s)
      as [->|[u ->]]; done.
  - done.
  - destruct (Depends_bind_state now authorization
      (fun current_user => do r <- create_item now body current_user;
                           ret (Item_json r)) s)
      as [->|[u ->]]; [done|].
    rewrite bind_ret_state. by apply db_wf_create_item.
  - done.
  - rewrite bind_ret_state. unfold get_item. run. by destruct (PyDict.get _ _).
  - destruct (Depends_bind_state now authorization
      (fun current_user => do r <- update_item item_id body current_user;
                           ret (Item_json r)) s)
      as [->|[u ->]]; [done|].
    rewrite bind_ret_state. by apply db_wf_update_item.
  - destruct (Depends_bind_state now authorization
      (fun current_user => do r <- delete_item item_id current_user;
                           ret (JObject [("message", JString r)])) s)
      as [->|[u ->]]; [done|].
    rewrite bind_ret_state. by apply db_wf_delete_item.
Qed.

Lemma reachable_wf s : reachable pwd_context SECRET_KEY s -> db_wf s.
Proof.
  induction 1 as [|s now salt req _ IH]; [apply db_wf_initial | by apply db_wf_app].
Qed.

End Reachable.

Lemma reachable_serve pwd_context SECRET_KEY calls s :
  reachable pwd_context SECRET_KEY s ->
  reachable pwd_context SECRET_KEY (serve pwd_context SECRET_KEY calls s).
Proof.
  revert s. induction calls as [|c calls IH]; intros s Hs; [done|].
  apply IH. by apply reachable_step.
Qed.

(** ** Slices with non-negative bounds *)

Lemma py_slice_nonneg {A : Type} (l : list A) (skip limit : Z) :
  0 <= skip -> 0 <= limit ->
  py_slice l skip (skip + limit) = take (Z.to_nat limit) (drop (Z.to_nat skip) l).
Proof.
  intros Hskip Hlimit. unfold py_slice, slice_index.
  destruct (Z.ltb_spec skip 0) as [?|_]; [lia|].
  destruct (Z.ltb_spec (skip + limit) 0) as [?|_]; [lia|].
  destruct (decide (skip <= Z.of_nat (length l))) as [Hin|Hout].
  - rewrite (Z.min_l skip) by done.
    destruct (decide (skip + limit <= Z.of_nat (length l))) as [Hfit|Hover].
    + rewrite Z.min_l by done. f_equal. lia.
    + rewrite Z.min_r by lia.
      rewrite !take_ge; [done | |]; rewrite length_drop; lia.
  - rewrite !drop_ge; [by rewrite !take_nil | lia |].
    rewrite (Z.min_r skip) by lia. lia.
Qed.

(** ** The model at work *)

Example slice_clamps : py_slice [1; 2; 3; 4] 2 12 = [3; 4].
Proof. reflexivity. Qed.

Example slice_past_the_end : py_slice [1; 2; 3; 4] 6 16 = [].
Proof. reflexivity. Qed.

Example slice_negative_start : py_slice [1; 2; 3; 4] (-3) 3 = [2; 3].
Proof. reflexivity. Qed.

Example login_alice :
  app sample_context sample_key 120 ""
    (POST_login {| UserLogin.username := "alice"; UserLogin.password := "longenough1" |})
    two_items_db =
  (Return (JObject [("access_token", JToken (default (Jwt.Opaque "") (bearer 120 "alice")));
                    ("token_type", JString "bearer")]),
   two_items_db).
Proof. reflexivity. Qed.

Example whoami_alice :
  (app sample_context sample_key 130 "" (GET_users_me (bearer 120 "alice")) two_items_db).1 =
  Return (User_json (response_model_User alice_row)).
Proof. reflexivity. Qed.

Example whoami_without_credentials :
  (app sample_context sample_key 130 "" (GET_users_me None) two_items_db).1 =
  Raise {| status_code := 403; detail := "Not authenticated"; headers := [] |}.
Proof. reflexivity. Qed.

Example two_items_listed :
  (get_items 0 10 two_items_db).1 = Return [widget_row; gadget_row].
Proof. reflexivity. Qed.

(** * The claims *)

(** C1. Item ids are not kept apart by [create_item]: the id of a new item
    is one more than the number of stored items, and after a deletion that
    number can be the id of an item still stored.  In the reachable state
    where Alice has created items 1 and 2 and deleted item 1, Bob's creation
    is given id 2, the id held by Alice's stored item, which is replaced by
    Bob's. *)
Theorem create_item_after_delete_reuses_id :
  reachable sample_context sample_key one_deleted_db ∧
  PyDict.get (items_db one_deleted_db) 2 = Some gadget_row ∧
  app sample_context sample_key 160 "" (POST_items (bearer 155 "bob") gizmo) one_deleted_db =
    (Return (Item_json gizmo_row),
     {| users_db := users_db one_deleted_db; items_db := [(2, gizmo_row)] |}) ∧
  Item.id gizmo_row = Item.id gadget_row.
Proof.
  split; [apply reachable_serve, reachable_initial|].
  split; [reflexivity|]. split; reflexivity.
Qed.

(** C2. Registering a username that is already stored fails with status 400
    ("Username already registered") and leaves the databases as they were;
    in particular the record stored under that username is the same before
    and after the failed call.  So it is when the username was stored by a
    registration that has just succeeded: the record that registration
    returned is still the one stored after the second, failed call. *)
Theorem register_duplicate_username pwd_context now salt user s :
  let taken :=
    {| status_code := 400; detail := "Username already registered"; headers := [] |} in
  (∀ row,
     PyDict.get (users_db s) (UserCreate.username user) = Some row ->
     register pwd_context now salt user s = (Raise taken, s) ∧
     PyDict.get (users_db (register pwd_context now salt user s).2) (UserCreate.username user)
       = Some row) ∧
  (∀ now0 salt0 first s0 row,
     register pwd_context now0 salt0 first s0 = (Return row, s) ->
     UserCreate.username first = UserCreate.username user ->
     PyDict.get (users_db s) (UserCreate.username user) = Some row ∧
     register pwd_context now salt user s = (Raise taken, s)).
Proof.
  intros taken.
  assert (∀ row, PyDict.get (users_db s) (UserCreate.username user) = Some row ->
            register pwd_context now salt user s = (Raise taken, s)) as Hdup.
  { intros row Hg. unfold register, PyDict.contains. run. by rewrite Hg. }
  split.
  - intros row Hg. by rewrite (Hdup row Hg).
  - intros now0 salt0 first s0 row Hfirst Hname.
    assert (PyDict.get (users_db s) (UserCreate.username user) = Some row) as Hg.
    { revert Hfirst. unfold register, PyDict.contains. run.
      destruct (PyDict.get (users_db s0) _); simpl; [done|].
      destruct (get_password_hash _ _ _); simpl; [|done..].
      intros [= <- <-]. simpl. rewrite <- Hname. apply get_set_eq. }
    split; [done | by apply (Hdup row)].
Qed.

Lemma register_duplicate_username_witness :
  PyDict.get (users_db two_items_db) "alice" = Some alice_row ∧
  register sample_context 170 "s3"
    {| UserCreate.username := "alice"; UserCreate.email := "other@example.com";
       UserCreate.full_name := Some "Other"; UserCreate.password := "different99" |}
    two_items_db
  = (Raise {| status_code := 400; detail := "Username already registered"; headers := [] |},
     two_items_db).
Proof.
  split; [reflexivity|].
  destruct (register_duplicate_username sample_context 170 "s3"
    {| UserCreate.username := "alice"; UserCreate.email := "other@example.com";
       UserCreate.full_name := Some "Other"; UserCreate.password := "different99" |}
    two_items_db) as (Hstored & _).
  destruct (Hstored alice_row eq_refl) as (Hfails & _). exact Hfails.
Defined.

(** C3. In a reachable state, let an item be stored whose owner is user A
    and let B be a stored user with another username.  Then [update_item]
    and [delete_item] by B on that item both fail with status 403 ("Not
    enough permissions"), the databases are left as they were, and the item
    is still stored with every field unchanged.  The same holds of the
    routes [PUT /items/{id}] and [DELETE /items/{id}] called with
    credentials that authenticate B. *)
Theorem foreign_update_delete_forbidden
    pwd_context SECRET_KEY s a b ua ub item_id stored body :
  reachable pwd_context SECRET_KEY s ->
  PyDict.get (users_db s) a = Some ua ->
  PyDict.get (users_db s) b = Some ub ->
  a ≠ b ->
  PyDict.get (items_db s) item_id = Some stored ->
  Item.owner_id stored = UserRow.id ua ->
  let forbidden :=
    {| status_code := 403; detail := "Not enough permissions"; headers := [] |} in
  update_item item_id body ub s = (Raise forbidden, s) ∧
  delete_item item_id ub s = (Raise forbidden, s) ∧
  PyDict.get (items_db (update_item item_id body ub s).2) item_id = Some stored ∧
  PyDict.get (items_db (delete_item item_id ub s).2) item_id = Some stored ∧
  (∀ now salt authorization,
     Depends_get_current_user SECRET_KEY now authorization s = (Return ub, s) ->
     app pwd_context SECRET_KEY now salt (PUT_item item_id authorization body) s =
       (Raise forbidden, s) ∧
     app pwd_context SECRET_KEY now salt (DELETE_item item_id authorization) s =
       (Raise forbidden, s)).
Proof.
  intros Hs Ha Hb Hab Hi Hown forbidden.
  apply reachable_wf in Hs as [Hu _].
  pose proof (users_wf_ids _ _ _ _ _ Hu Ha Hb Hab) as Hids.
  assert (update_item item_id body ub s = (Raise forbidden, s)) as Hupdate.
  { unfold update_item. run. rewrite Hi. simpl.
    rewrite bool_decide_false by congruence. done. }
  assert (delete_item item_id ub s = (Raise forbidden, s)) as Hdelete.
  { unfold delete_item. run. rewrite Hi. simpl.
    rewrite bool_decide_false by congruence. done. }
  rewrite Hupdate, Hdelete. simpl.
  split; [done|]. split; [done|]. split; [done|]. split; [done|].
  intros now salt authorization Hauth. unfold bind. rewrite Hauth.
  by rewrite Hupdate, Hdelete.
Qed.

Lemma foreign_update_delete_forbidden_witness :
  reachable sample_context sample_key two_items_db ∧
  PyDict.get (users_db two_items_db) "alice" = Some alice_row ∧
  PyDict.get (users_db two_items_db) "bob" = Some bob_row ∧
  PyDict.get (items_db two_items_db) 1 = Some widget_row ∧
  Depends_get_current_user sample_key 200 (bearer 190 "bob") two_items_db =
    (Return bob_row, two_items_db) ∧
  app sample_context sample_key 200 "" (PUT_item 1 (bearer 190 "bob") gizmo) two_items_db =
    (Raise {| status_code := 403; detail := "Not enough permissions"; headers := [] |},
     two_items_db).
Proof.
  assert (reachable sample_context sample_key two_items_db) as Hs
    by apply reachable_serve, reachable_initial.
  split; [exact Hs|]. split; [reflexivity|]. split; [reflexivity|]. split; [reflexivity|].
  split; [reflexivity|].
  destruct (foreign_update_delete_forbidden sample_context sample_key two_items_db
              "alice" "bob" alice_row bob_row 1 widget_row gizmo Hs)
    as (_ & _ & _ & _ & Hroutes);
    [reflexivity | reflexivity | discriminate | reflexivity | reflexivity |].
  destruct (Hroutes 200 "" (bearer 190 "bob") eq_refl) as (Hput & _). exact Hput.
Defined.

(** C4. In a reachable state [update_item] fails with status 404 when the
    id is not stored and with status 403 when the requester is not the
    stored owner, leaving the databases as they were.  When the requester is
    the stored owner it succeeds: the stored item takes the title,
    description and price of the request and keeps its id, owner and
    creation time; no other item and no user changes. *)
Theorem update_item_contract pwd_context SECRET_KEY s item_id body current_user :
  reachable pwd_context SECRET_KEY s ->
  (PyDict.get (items_db s) item_id = None ->
     update_item item_id body current_user s =
       (Raise {| status_code := 404; detail := "Item not found"; headers := [] |}, s)) ∧
  (∀ stored,
     PyDict.get (items_db s) item_id = Some stored ->
     Item.owner_id stored ≠ UserRow.id current_user ->
     update_item item_id body current_user s =
       (Raise {| status_code := 403; detail := "Not enough permissions"; headers := [] |}, s)) ∧
  (∀ stored,
     PyDict.get (items_db s) item_id = Some stored ->
     Item.owner_id stored = UserRow.id current_user ->
     ∃ updated s',
       update_item item_id body current_user s = (Return updated, s') ∧
       Item.title updated = ItemCreate.title body ∧
       Item.description updated = ItemCreate.description body ∧
       Item.price updated = ItemCreate.price body ∧
       Item.id updated = Item.id stored ∧
       Item.owner_id updated = Item.owner_id stored ∧
       Item.created_at updated = Item.created_at stored ∧
       PyDict.get (items_db s') item_id = Some updated ∧
       (∀ j, j ≠ item_id -> PyDict.get (items_db s') j = PyDict.get (items_db s) j) ∧
       PyDict.keys (items_db s') = PyDict.keys (items_db s) ∧
       users_db s' = users_db s).
Proof.
  intros Hs. apply reachable_wf in Hs as [_ [_ Hids]].
  unfold update_item. run. split; [|split].
  - by intros ->.
  - intros stored -> Hown. simpl. by rewrite bool_decide_false.
  - intros stored Hg Hown. rewrite Hg. simpl. rewrite bool_decide_true by done. simpl.
    eexists _, _. split; [reflexivity|]. simpl.
    repeat split; try done.
    + symmetry. apply Hids. by apply get_Some_elem_of.
    + apply get_set_eq.
    + intros j Hj. by apply get_set_ne.
    + apply keys_set_present. eauto.
Qed.

Lemma update_item_contract_witness :
  reachable sample_context sample_key two_items_db ∧
  PyDict.get (items_db two_items_db) 1 = Some widget_row ∧
  Item.owner_id widget_row = UserRow.id alice_row ∧
  ∃ updated s',
    update_item 1 gizmo alice_row two_items_db = (Return updated, s') ∧
    Item.title updated = "Gizmo" ∧
    Item.id updated = 1 ∧
    Item.created_at updated = 130.
Proof.
  assert (reachable sample_context sample_key two_items_db) as Hs
    by apply reachable_serve, reachable_initial.
  split; [exact Hs|]. split; [reflexivity|]. split; [reflexivity|].
  destruct (update_item_contract sample_context sample_key two_items_db 1 gizmo alice_row Hs)
    as (_ & _ & Hok).
  destruct (Hok widget_row) as (updated & s' & Hrun & Ht & _ & _ & Hid & _ & Hc & _);
    [reflexivity | reflexivity |].
  exists updated, s'. split; [exact Hrun|]. split; [exact Ht|]. split; [exact Hid | exact Hc].
Defined.

(** C10. In a reachable state, [delete_item] by the owner of a stored item
    succeeds and removes that item and nothing else: afterwards its id is
    not stored ([get_item] fails with status 404), every other id is stored
    with the same item as before, and no user changes. *)
Theorem delete_item_removes_exactly pwd_context SECRET_KEY s item_id stored current_user :
  reachable pwd_context SECRET_KEY s ->
  PyDict.get (items_db s) item_id = Some stored ->
  Item.owner_id stored = UserRow.id current_user ->
  ∃ s',
    delete_item item_id current_user s = (Return "Item deleted successfully", s') ∧
    PyDict.get (items_db s') item_id = None ∧
    get_item item_id s' =
      (Raise {| status_code := 404; detail := "Item not found"; headers := [] |}, s') ∧
    (∀ j, j ≠ item_id -> PyDict.get (items_db s') j = PyDict.get (items_db s) j) ∧
    users_db s' = users_db s.
Proof.
  intros Hs Hg Hown. apply reachable_wf in Hs as [_ [Hnd _]].
  unfold delete_item. run. rewrite Hg. simpl. rewrite bool_decide_true by done. simpl.
  eexists. split; [reflexivity|]. simpl.
  pose proof (get_del_eq (items_db s) item_id Hnd) as Hgone.
  split; [done|]. split; [|split; [|done]].
  - unfold get_item. run. by rewrite Hgone.
  - intros j Hj. by apply get_del_ne.
Qed.

Lemma delete_item_removes_exactly_witness :
  reachable sample_context sample_key two_items_db ∧
  PyDict.get (items_db two_items_db) 1 = Some widget_row ∧
  Item.owner_id widget_row = UserRow.id alice_row ∧
  ∃ s',
    delete_item 1 alice_row two_items_db = (Return "Item deleted successfully", s') ∧
    PyDict.get (items_db s') 1 = None ∧
    PyDict.get (items_db s') 2 = Some gadget_row.
Proof.
  assert (reachable sample_context sample_key two_items_db) as Hs
    by apply reachable_serve, reachable_initial.
  split; [exact Hs|]. split; [reflexivity|]. split; [reflexivity|].
  destruct (delete_item_removes_exactly sample_context sample_key two_items_db 1
              widget_row alice_row Hs) as (s' & Hrun & Hgone & _ & Hrest & _);
    [reflexivity | reflexivity |].
  exists s'. split; [exact Hrun|]. split; [exact Hgone|].
  rewrite (Hrest 2); [reflexivity | discriminate].
Defined.

(** C7. [get_items] never raises.  For non-negative [skip] and [limit] it
    returns the items stored at positions [skip], ..., [skip + limit - 1] of
    the insertion order, as many of them as exist (none when [skip] is past
    the end).  After three creations in an empty [items_db], the listing
    with the default [skip = 0] and [limit = 10] returns the three created
    items in the order of their creation. *)
Theorem get_items_page pwd_context SECRET_KEY s :
  (∀ skip limit, ∃ page, get_items skip limit s = (Return page, s)) ∧
  (∀ skip limit, 0 <= skip -> 0 <= limit ->
     let stored := PyDict.values (items_db s) in
     let page := take (Z.to_nat limit) (drop (Z.to_nat skip) stored) in
     get_items skip limit s = (Return page, s) ∧
     ∀ k : nat,
       page !! k =
         if decide (Z.of_nat k < limit) then stored !! (Z.to_nat skip + k)%nat else None) ∧
  (∀ n1 n2 n3 i1 i2 i3 u1 u2 u3 now salt,
     items_db s = PyDict.empty ->
     ∃ a b c s',
       (do a <- create_item n1 i1 u1;
        do b <- create_item n2 i2 u2;
        do c <- create_item n3 i3 u3;
        ret (a, b, c)) s = (Return (a, b, c), s') ∧
       app pwd_context SECRET_KEY now salt (GET_items None None) s' =
         (Return (JArray [Item_json a; Item_json b; Item_json c]), s')).
Proof.
  split; [|split].
  - intros skip limit. eexists. reflexivity.
  - intros skip limit Hskip Hlimit stored page. split.
    + unfold get_items. run. by rewrite py_slice_nonneg.
    + intros k. subst page. case_decide.
      * rewrite lookup_take_lt by lia. apply lookup_drop.
      * apply lookup_take_ge. lia.
  - intros n1 n2 n3 i1 i2 i3 u1 u2 u3 now salt Hempty.
    destruct s as [users items]. simpl in Hempty. subst items.
    eexists _, _, _, _. split; reflexivity.
Qed.

Lemma get_items_page_witness :
  0 <= 1 ∧ 0 <= 5 ∧
  get_items 1 5 two_items_db = (Return [gadget_row], two_items_db) ∧
  get_items 7 5 two_items_db = (Return [], two_items_db).
Proof.
  split; [lia|]. split; [lia|].
  destruct (get_items_page sample_context sample_key two_items_db) as (_ & Hpage & _).
  split.
  - apply (Hpage 1 5); lia.
  - apply (Hpage 7 5); lia.
Defined.

Ltac not_a_key :=
  let H := fresh in
  intros H; repeat (apply elem_of_cons in H as [H|H]; [discriminate H|]);
  by apply elem_of_nil in H.

Lemma User_json_keys (u : User.t) :
  json_keys (User_json u) =
    ["username"; "email"; "full_name"; "id"; "is_active"; "created_at"] ∧
  ("password" ∉ json_keys (User_json u)) ∧
  ("passwordHash" ∉ json_keys (User_json u)).
Proof. split; [reflexivity|]. split; not_a_key. Qed.

(** C5. The body that [POST /register] answers with has exactly the fields
    of the response model [User]: it has no [password] and no [passwordHash]
    field, and it is made of the username, e-mail and full name of the
    request, the new id, [is_active] and the creation time only, whatever
    the password and its hash are.  The bodies of [GET /users/me] and of
    every element of [GET /users] have the same fields. *)
Theorem user_views_omit_password pwd_context SECRET_KEY now salt s :
  let user_fields := ["username"; "email"; "full_name"; "id"; "is_active"; "created_at"] in
  (∀ user body s',
     app pwd_context SECRET_KEY now salt (POST_register user) s = (Return body, s') ->
     json_keys body = user_fields ∧
     ("password" ∉ json_keys body) ∧
     ("passwordHash" ∉ json_keys body) ∧
     body = User_json
              {| User.username := UserCreate.username user;
                 User.email := UserCreate.email user;
                 User.full_name := UserCreate.full_name user;
                 User.id := PyDict.len (users_db s) + 1;
                 User.is_active := true;
                 User.created_at := now |}) ∧
  (∀ authorization body s',
     app pwd_context SECRET_KEY now salt (GET_users_me authorization) s = (Return body, s') ->
     json_keys body = user_fields ∧
     ("password" ∉ json_keys body) ∧
     ("passwordHash" ∉ json_keys body)) ∧
  (∀ body s',
     app pwd_context SECRET_KEY now salt GET_users s = (Return body, s') ->
     ∃ views,
       body = JArray views ∧
       length views = length (users_db s) ∧
       Forall (fun view =>
                 json_keys view = user_fields ∧
                 ("password" ∉ json_keys view) ∧
                 ("passwordHash" ∉ json_keys view)) views).
Proof.
  intros user_fields. split; [|split].
  - intros user body s'. simpl. unfold register, PyDict.contains. run.
    destruct (PyDict.get _ _); simpl; [done|].
    destruct (get_password_hash _ _ _); simpl; [|done..].
    intros [= <- _]. split; [reflexivity|]. split; [not_a_key|]. split; [not_a_key|done].
  - intros authorization body s'. simpl.
    unfold Depends_get_current_user, security, get_current_user, read_users_me.
    destruct authorization as [credentials|]; run; [|done].
    destruct (token_subject _ _ _); run; [|done..].
    destruct (PyDict.get _ _); simpl; [|done].
    intros [= <- _]. apply User_json_keys.
  - intros body s'. simpl. unfold get_users. run. intros [= <- _].
    eexists. split; [reflexivity|]. split.
    + unfold PyDict.values. by rewrite length_map, length_fmap.
    + apply Forall_forall. intros view Hin. apply list_elem_of_In in Hin.
      apply in_map_iff in Hin as (row & <- & _). apply User_json_keys.
Qed.

Lemma user_views_omit_password_witness :
  ∃ body s',
    app sample_context sample_key 100 "s1" (POST_register alice) initial = (Return body, s') ∧
    PyDict.get (users_db s') "alice" = Some alice_row ∧
    ("password" ∉ json_keys body).
Proof.
  eexists _, _. split; [reflexivity|]. split; [reflexivity|].
  destruct (user_views_omit_password sample_context sample_key 100 "s1" initial)
    as (Hregister & _ & _).
  destruct (Hregister alice _ _ eq_refl) as (_ & Hpw & _). exact Hpw.
Defined.

(** C6. The two causes of a failed login are not always answered alike.  A
    login for a username that is not stored raises status 401, "Incorrect
    username or password", without looking at the password.  A login for a
    stored username raises the same exception when the verification of the
    password returns false; but when the verification itself raises (as
    passlib's bcrypt does for a password holding a NUL byte), that exception
    leaves [login] uncaught.  With such a password the caller can tell a
    stored username from one that is not stored. *)
Theorem login_verification_error_tells_usernames
    pwd_context SECRET_KEY now s absent stored password row :
  PyDict.get (users_db s) absent = None ->
  PyDict.get (users_db s) stored = Some row ->
  let unauthorized :=
    {| status_code := 401;
       detail := "Incorrect username or password";
       headers := [("WWW-Authenticate", "Bearer")] |} in
  let login_as username :=
    login pwd_context SECRET_KEY now
      {| UserLogin.username := username; UserLogin.password := password |} s in
  login_as absent = (Raise unauthorized, s) ∧
  (verify_password pwd_context password (UserRow.password row) = Return false ->
     login_as stored = (Raise unauthorized, s)) ∧
  (∀ exc,
     verify_password pwd_context password (UserRow.password row) = Uncaught exc ->
     login_as stored = (Uncaught exc, s) ∧
     (login_as absent).1 ≠ (login_as stored).1).
Proof.
  intros Habsent Hstored unauthorized login_as.
  assert (login_as absent = (Raise unauthorized, s)) as Hunknown.
  { subst login_as. unfold login. run. by rewrite Habsent. }
  split; [exact Hunknown|]. split.
  - intros Hverify. subst login_as. unfold login. run. rewrite Hstored. simpl.
    by rewrite Hverify.
  - intros exc Hverify.
    assert (login_as stored = (Uncaught exc, s)) as Hknown.
    { subst login_as. unfold login. run. rewrite Hstored. simpl. by rewrite Hverify. }
    split; [exact Hknown|]. by rewrite Hunknown, Hknown.
Qed.

Lemma login_verification_error_tells_usernames_witness :
  PyDict.get (users_db two_items_db) "carol" = None ∧
  PyDict.get (users_db two_items_db) "alice" = Some alice_row ∧
  verify_password sample_context nul_password (UserRow.password alice_row) =
    Uncaught "PasswordValueError" ∧
  login sample_context sample_key 200
    {| UserLogin.username := "carol"; UserLogin.password := nul_password |} two_items_db =
    (Raise {| status_code := 401;
              detail := "Incorrect username or password";
              headers := [("WWW-Authenticate", "Bearer")] |}, two_items_db) ∧
  login sample_context sample_key 200
    {| UserLogin.username := "alice"; UserLogin.password := nul_password |} two_items_db =
    (Uncaught "PasswordValueError", two_items_db).
Proof.
  split; [reflexivity|]. split; [reflexivity|]. split; [reflexivity|].
  destruct (login_verification_error_tells_usernames sample_context sample_key 200
              two_items_db "carol" "alice" nul_password alice_row eq_refl eq_refl)
    as (Hunknown & _ & Hraises).
  split; [exact Hunknown|].
  destruct (Hraises "PasswordValueError" eq_refl) as (Hknown & _). exact Hknown.
Defined.

Lemma token_subject_encode SECRET_KEY now payload :
  token_subject SECRET_KEY now (Jwt.encode payload SECRET_KEY) =
    if Jwt.expired payload now then Raise credentials_exception
    else match Jwt.sub payload with
         | Some username => Return username
         | None => Raise credentials_exception
         end.
Proof.
  unfold token_subject, Jwt.encode. simpl. rewrite decide_True by done.
  by destruct (Jwt.expired payload now).
Qed.

(** C8, as the claim words it, fails for a token that is a compact
    serialisation, validly signed under the secret, not expired, and without
    a [sub] claim: none of the three causes holds, and the check
    [if username is None] refuses it all the same. *)
Lemma token_without_subject_refused :
  let token := Jwt.encode {| Jwt.sub := None; Jwt.exp := Some 1920 |} sample_key in
  token_subject sample_key 1000 token = Raise credentials_exception ∧
  ¬ (malformed token ∨ ¬ signature_matches sample_key token ∨ expiry_in_the_past 1000 token).
Proof.
  split; [reflexivity|].
  intros [Hmalformed|[Hsignature|(e & [= <-] & Hpast)]].
  - exact Hmalformed.
  - apply Hsignature. by eexists.
  - lia.
Qed.

(** C8, amended. Verifying a token (the [try] block of [get_current_user])
    fails, with status 401 "Could not validate credentials", exactly when
    the token is structurally malformed, when its signature is not the one
    computed under [SECRET_KEY] over its payload, when its embedded expiry
    is not after the time of the check, or when its payload has no [sub]
    claim; in every other case it returns the embedded subject.  A token
    issued with a lifetime of 30 minutes verifies at the time of issue and
    at every time before its expiry, and fails at every time from its expiry
    on. *)
Theorem token_verification SECRET_KEY now token :
  let invalid :=
    {| status_code := 401;
       detail := "Could not validate credentials";
       headers := [("WWW-Authenticate", "Bearer")] |} in
  let refused :=
    malformed token ∨ ¬ signature_matches SECRET_KEY token ∨
    expiry_in_the_past now token ∨ no_subject token in
  (token_subject SECRET_KEY now token = Raise invalid <-> refused) ∧
  (¬ refused ->
     ∃ username,
       embedded_subject token = Some username ∧
       token_subject SECRET_KEY now token = Return username) ∧
  (∀ issued data username later,
     Jwt.sub data = Some username ->
     let fresh := create_access_token SECRET_KEY issued data (Some (minutes 30)) in
     embedded_expiry fresh = Some (issued + 1800) ∧
     token_subject SECRET_KEY issued fresh = Return username ∧
     (issued <= later < issued + 1800 -> token_subject SECRET_KEY later fresh = Return username) ∧
     (issued + 1800 <= later -> token_subject SECRET_KEY later fresh = Raise invalid)).
Proof.
  intros invalid refused.
  assert ((token_subject SECRET_KEY now token = Raise invalid ∧ refused) ∨
          (∃ username, embedded_subject token = Some username ∧
             token_subject SECRET_KEY now token = Return username ∧ ¬ refused)) as Hcases.
  { subst refused.
    unfold token_subject, malformed, signature_matches, expiry_in_the_past, no_subject.
    destruct token as [payload sig|raw]; simpl; [|left; split; [done | by left]].
    destruct (decide (sig = Jwt.Mac SECRET_KEY payload)) as [->|Hsig].
    - unfold Jwt.expired. destruct (Jwt.exp payload) as [e|] eqn:Hexp.
      + destruct (Z.leb_spec e now) as [Hle|Hgt].
        * left. split; [done|]. right; right; left. by exists e.
        * destruct (Jwt.sub payload) as [username|] eqn:Hsub.
          -- right. exists username. split; [done|]. split; [done|].
             intros [?|[Hno|[(e' & [= <-] & ?)|?]]]; [done | | lia | done].
             apply Hno. by exists payload.
          -- left. split; [done|]. by right; right; right.
      + destruct (Jwt.sub payload) as [username|] eqn:Hsub.
        * right. exists username. split; [done|]. split; [done|].
          intros [?|[Hno|[(e' & ? & ?)|?]]]; [done | | done | done].
          apply Hno. by exists payload.
        * left. split; [done|]. by right; right; right.
    - left. split; [done|]. right; left. intros (payload' & [= <- ->]). done. }
  split; [|split].
  - destruct Hcases as [[Hfail Hwhy]|(username & _ & Hok & Hnot)]; [done|].
    rewrite Hok. split; [done | by intros ?].
  - intros Hnot. destruct Hcases as [[_ Hwhy]|(username & Hsub & Hok & _)]; [done|].
    by exists username.
  - intros issued data username later Hsub fresh. subst fresh.
    unfold create_access_token. simpl. rewrite !token_subject_encode.
    unfold Jwt.expired, minutes. simpl. rewrite Hsub.
    split; [f_equal; lia|]. split; [|split].
    + destruct (Z.leb_spec (issued + 60 * 30) issued); [lia | done].
    + intros Hlater. destruct (Z.leb_spec (issued + 60 * 30) later); [lia | done].
    + intros Hlater. destruct (Z.leb_spec (issued + 60 * 30) later); [done | lia].
Qed.

Lemma token_verification_witness :
  Jwt.sub {| Jwt.sub := Some "alice"; Jwt.exp := None |} = Some "alice" ∧
  120 <= 1919 < 120 + 1800 ∧
  120 + 1800 <= 1920 ∧
  token_subject sample_key 1919 (default (Jwt.Opaque "") (bearer 120 "alice")) = Return "alice" ∧
  token_subject sample_key 1920 (default (Jwt.Opaque "") (bearer 120 "alice")) =
    Raise credentials_exception.
Proof.
  split; [reflexivity|]. split; [lia|]. split; [lia|].
  destruct (token_verification sample_key 0 (Jwt.Opaque "")) as (_ & _ & Hfresh).
  split.
  - destruct (Hfresh 120 {| Jwt.sub := Some "alice"; Jwt.exp := None |} "alice" 1919 eq_refl)
      as (_ & _ & Hbefore & _).
    apply Hbefore. lia.
  - destruct (Hfresh 120 {| Jwt.sub := Some "alice"; Jwt.exp := None |} "alice" 1920 eq_refl)
      as (_ & _ & _ & Hafter).
    apply Hafter. lia.
Defined.




(** * Further properties of the handlers *)

(** ** More on dictionaries *)

Section MoreDictFacts.
Context {K V : Type} `{EqDecision K}.
Implicit Types (d e : PyDict.t K V) (k j : K) (v w : V).

Lemma get_app_Some d e k v : PyDict.get d k = Some v -> PyDict.get (d ++ e) k = Some v.
Proof.
  induction d as [|[k' v'] d IH]; simpl; [done|].
  destruct (decide (k' = k)); [done | apply IH].
Qed.

Lemma get_app_None d e k : PyDict.get d k = None -> PyDict.get (d ++ e) k = PyDict.get e k.
Proof.
  induction d as [|[k' v'] d IH]; simpl; [done|].
  destruct (decide (k' = k)); [done | apply IH].
Qed.

Lemma del_append_absent d k v : PyDict.get d k = None -> PyDict.del (d ++ [(k, v)]) k = d.
Proof.
  induction d as [|[k' v'] d IH]; simpl.
  - by rewrite decide_True.
  - destruct (decide (k' = k)); [done|]. intros Hg. by rewrite IH.
Qed.

Lemma set_set d k v w : PyDict.set (PyDict.set d k v) k w = PyDict.set d k w.
Proof.
  induction d as [|[k' v'] d IH]; simpl.
  - by rewrite decide_True.
  - destruct (decide (k' = k)) as [->|Hne]; simpl.
    + by rewrite decide_True.
    + rewrite decide_False by done. by rewrite IH.
Qed.

Lemma del_absent d k : PyDict.get d k = None -> PyDict.del d k = d.
Proof.
  induction d as [|[k' v'] d IH]; simpl; [done|].
  destruct (decide (k' = k)); [done|]. intros Hg. by rewrite IH.
Qed.

End MoreDictFacts.

(** ** Authentication *)

Lemma token_subject_raises SECRET_KEY now credentials e :
  token_subject SECRET_KEY now credentials = Raise e -> e = credentials_exception.
Proof.
  unfold token_subject. destruct (Jwt.decode _ _ _) as [?|payload]; [by intros [= <-]|].
  destruct (Jwt.sub payload); [done | by intros [= <-]].
Qed.

Lemma token_subject_caught SECRET_KEY now credentials exc :
  token_subject SECRET_KEY now credentials ≠ Uncaught exc.
Proof.
  unfold token_subject. destruct (Jwt.decode _ _ _) as [?|payload]; [done|].
  by destruct (Jwt.sub payload).
Qed.

(** The dependency of the protected routes either raises, with status 401
    or 403, or returns a stored user; it never writes. *)
Lemma Depends_get_current_user_cases SECRET_KEY now authorization s :
  (∃ e, Depends_get_current_user SECRET_KEY now authorization s = (Raise e, s) ∧
        (status_code e = 401 ∨ status_code e = 403)) ∨
  (∃ username current_user,
     Depends_get_current_user SECRET_KEY now authorization s = (Return current_user, s) ∧
     PyDict.get (users_db s) username = Some current_user).
Proof.
  unfold Depends_get_current_user, security, get_current_user.
  destruct authorization as [credentials|]; run; [|left; eexists; split; [done | by right]].
  destruct (token_subject SECRET_KEY now credentials) as [username|e|exc] eqn:Hsubject; run.
  - destruct (PyDict.get (users_db s) username) as [row|] eqn:Hg; simpl.
    + right. by exists username, row.
    + left. eexists. split; [done | by left].
  - apply token_subject_raises in Hsubject as ->.
    left. eexists. split; [done | by left].
  - by apply token_subject_caught in Hsubject.
Qed.

(** A token issued for [username] with a lifetime of 30 minutes, checked
    before its expiry, authenticates exactly the row stored under that
    name. *)
Lemma get_current_user_fresh SECRET_KEY issued later username s :
  issued <= later < issued + 1800 ->
  get_current_user SECRET_KEY later
    (create_access_token SECRET_KEY issued
       {| Jwt.sub := Some username; Jwt.exp := None |}
       (Some (minutes ACCESS_TOKEN_EXPIRE_MINUTES))) s =
  match PyDict.get (users_db s) username with
  | Some row => (Return row, s)
  | None =>
      (Raise {| status_code := 401; detail := "User not found";
                headers := [("WWW-Authenticate", "Bearer")] |}, s)
  end.
Proof.
  intros Hlater. unfold get_current_user, create_access_token. simpl.
  rewrite token_subject_encode. unfold Jwt.expired, minutes. simpl.
  destruct (Z.leb_spec (issued + 60 * ACCESS_TOKEN_EXPIRE_MINUTES) later) as [Hle|_].
  { unfold ACCESS_TOKEN_EXPIRE_MINUTES in Hle. lia. }
  run. by destruct (PyDict.get _ _).
Qed.

(** ** What a request leaves of the users *)

Lemma app_users_db pwd_context SECRET_KEY now salt req s :
  users_db (app pwd_context SECRET_KEY now salt req s).2 = users_db s ∨
  ∃ body row,
    req = POST_register body ∧
    PyDict.get (users_db s) (UserCreate.username body) = None ∧
    users_db (app pwd_context SECRET_KEY now salt req s).2 =
      users_db s ++ [(UserCreate.username body, row)].
Proof.
  destruct req; simpl.
  - rewrite bind_ret_state.
    destruct (register_state pwd_context now salt body s) as [->|(row & Hg & _ & _ & ->)];
      [by left|].
    right. by exists body, row.
  - left. by rewrite bind_ret_state, login_state.
  - left. destruct (Depends_bind_state SECRET_KEY now authorization
      (fun current_user => do r <- read_users_me current_user;
                           ret (User_json (response_model_User r))) s)
      as [->|[u ->]]; done.
  - by left.
  - left. destruct (Depends_bind_state SECRET_KEY now authorization
      (fun current_user => do r <- create_item now body current_user;
                           ret (Item_json r)) s)
      as [->|[u ->]]; [done|].
    by rewrite bind_ret_state, create_item_state.
  - by left.
  - left. rewrite bind_ret_state. unfold get_item. run. by destruct (PyDict.get _ _).
  - left. destruct (Depends_bind_state SECRET_KEY now authorization
      (fun current_user => do r <- update_item item_id body current_user;
                           ret (Item_json r)) s)
      as [->|[u ->]]; [done|].
    rewrite bind_ret_state.
    by destruct (update_item_state item_id body u s) as [->|(row & _ & ->)].
  - left. destruct (Depends_bind_state SECRET_KEY now authorization
      (fun current_user => do r <- delete_item item_id current_user;
                           ret (JObject [("message", JString r)])) s)
      as [->|[u ->]]; [done|].
    rewrite bind_ret_state.
    by destruct (delete_item_state item_id u s) as [->| ->].
Qed.

Lemma serve_users_prefix pwd_context SECRET_KEY calls s :
  users_db s `prefix_of` users_db (serve pwd_context SECRET_KEY calls s).
Proof.
  revert s. induction calls as [|c calls IH]; intros s; simpl; [done|].
  etrans; [|apply IH].
  destruct (app_users_db pwd_context SECRET_KEY (call_now c) (call_salt c) (call_request c) s)
    as [->|(body & row & _ & _ & ->)]; [done|].
  by apply prefix_app_r.
Qed.

Lemma serve_users_lookup pwd_context SECRET_KEY calls s username row :
  PyDict.get (users_db s) username = Some row ->
  PyDict.get (users_db (serve pwd_context SECRET_KEY calls s)) username = Some row.
Proof.
  intros Hg. destruct (serve_users_prefix pwd_context SECRET_KEY calls s) as [added ->].
  by apply get_app_Some.
Qed.

Lemma users_wf_username d k row :
  users_wf d -> PyDict.get d k = Some row -> UserRow.username row = k.
Proof.
  intros [_ Hrows] [i Hi]%get_Some_lookup. by destruct (Hrows _ _ _ Hi).
Qed.

Lemma users_wf_id_range d k row :
  users_wf d -> PyDict.get d k = Some row -> 1 <= UserRow.id row <= PyDict.len d.
Proof.
  intros [_ Hrows] [i Hi]%get_Some_lookup. destruct (Hrows _ _ _ Hi) as [_ ->].
  apply lookup_lt_Some in Hi. unfold PyDict.len. lia.
Qed.

(** ** Registration, login and authentication together *)

(** X1. Registering a username that is not stored hashes the password
    first.  If the hasher raises, [register] ends with that exception and
    nothing is written.  If it returns a hash, the registration succeeds:
    the new record gets the next id and that hash, goes last in [users_db],
    and [items_db] is untouched; and if the hasher then verifies the
    password against that hash, a login with the same username and password
    succeeds and, until 30 minutes after the login, [GET /users/me] with the
    returned token answers with the view of the new record. *)
Theorem register_login_whoami pwd_context SECRET_KEY s user registered salt :
  PyDict.get (users_db s) (UserCreate.username user) = None ->
  (∀ exc,
     get_password_hash pwd_context salt (UserCreate.password user) = Uncaught exc ->
     register pwd_context registered salt user s = (Uncaught exc, s)) ∧
  (∀ e,
     get_password_hash pwd_context salt (UserCreate.password user) = Raise e ->
     register pwd_context registered salt user s = (Raise e, s)) ∧
  (∀ hashed,
     get_password_hash pwd_context salt (UserCreate.password user) = Return hashed ->
     ∃ row s1,
       register pwd_context registered salt user s = (Return row, s1) ∧
       row = {| UserRow.username := UserCreate.username user;
                UserRow.email := UserCreate.email user;
                UserRow.full_name := UserCreate.full_name user;
                UserRow.password := hashed;
                UserRow.id := PyDict.len (users_db s) + 1;
                UserRow.created_at := registered |} ∧
       users_db s1 = users_db s ++ [(UserCreate.username user, row)] ∧
       items_db s1 = items_db s ∧
       (∀ logged later salt',
          verify_password pwd_context (UserCreate.password user) hashed = Return true ->
          logged <= later < logged + 1800 ->
          ∃ issued,
            login pwd_context SECRET_KEY logged
              {| UserLogin.username := UserCreate.username user;
                 UserLogin.password := UserCreate.password user |} s1 = (Return issued, s1) ∧
            app pwd_context SECRET_KEY later salt'
              (GET_users_me (Some (Token.access_token issued))) s1 =
              (Return (User_json (response_model_User row)), s1))).
Proof.
  intros Hfresh. split; [|split].
  - intros exc Hhash. unfold register, PyDict.contains. run. rewrite Hfresh. simpl.
    by rewrite Hhash.
  - intros e Hhash. unfold register, PyDict.contains. run. rewrite Hfresh. simpl.
    by rewrite Hhash.
  - intros hashed Hhash. eexists _, _. split.
    { unfold register, PyDict.contains. run. rewrite Hfresh. simpl. rewrite Hhash.
      rewrite set_absent by done. reflexivity. }
    simpl. split; [done|]. split; [done|]. split; [done|].
    intros logged later salt' Hverify Hlater.
    assert (∀ row, PyDict.get (users_db s ++ [(UserCreate.username user, row)])
                     (UserCreate.username user) = Some row) as Hstored.
    { intros row. rewrite get_app_None by done. simpl. by rewrite decide_True. }
    eexists. split.
    + unfold login. run. rewrite Hstored. simpl. rewrite Hverify. reflexivity.
    + simpl. unfold Depends_get_current_user, security. run.
      rewrite get_current_user_fresh by done. simpl. rewrite Hstored. reflexivity.
Qed.

Lemma register_login_whoami_witness :
  PyDict.get (users_db two_items_db) "carol" = None ∧
  get_password_hash sample_context "s3" "longenough3" = Return "s3$longenough3" ∧
  verify_password sample_context "longenough3" "s3$longenough3" = Return true ∧
  400 <= 2199 < 400 + 1800 ∧
  ∃ row s1 issued,
    register sample_context 300 "s3" carol two_items_db = (Return row, s1) ∧
    UserRow.id row = 3 ∧
    login sample_context sample_key 400
      {| UserLogin.username := "carol"; UserLogin.password := "longenough3" |} s1 =
      (Return issued, s1) ∧
    app sample_context sample_key 2199 ""
      (GET_users_me (Some (Token.access_token issued))) s1 =
      (Return (User_json (response_model_User row)), s1).
Proof.
  split; [reflexivity|]. split; [reflexivity|]. split; [reflexivity|]. split; [lia|].
  destruct (register_login_whoami sample_context sample_key two_items_db carol 300 "s3"
              eq_refl) as (_ & _ & Hreturns).
  destruct (Hreturns "s3$longenough3" eq_refl) as (row & s1 & Hr & Hrow & _ & _ & Hlogin).
  destruct (Hlogin 400 2199 "") as (issued & Hl & Hme); [reflexivity | lia |].
  exists row, s1, issued. split; [exact Hr|]. split; [by rewrite Hrow|].
  split; [exact Hl | exact Hme].
Defined.

(** X2. In a reachable state a successful login changes nothing and returns
    a bearer token that authenticates the stored user who logged in: from
    the login until 30 minutes later [get_current_user] returns that user's
    record, in the state of the login and in every state that later requests
    lead to; from 30 minutes after the login on it raises status 401. *)
Theorem login_token_authenticates
    pwd_context SECRET_KEY s now user_credentials issued s' :
  reachable pwd_context SECRET_KEY s ->
  login pwd_context SECRET_KEY now user_credentials s = (Return issued, s') ->
  s' = s ∧
  Token.token_type issued = "bearer" ∧
  embedded_subject (Token.access_token issued) = Some (UserLogin.username user_credentials) ∧
  ∃ row,
    PyDict.get (users_db s) (UserLogin.username user_credentials) = Some row ∧
    verify_password pwd_context (UserLogin.password user_credentials) (UserRow.password row)
      = Return true ∧
    (∀ calls later,
       now <= later < now + 1800 ->
       let s2 := serve pwd_context SECRET_KEY calls s in
       get_current_user SECRET_KEY later (Token.access_token issued) s2 = (Return row, s2)) ∧
    (∀ calls later,
       now + 1800 <= later ->
       let s2 := serve pwd_context SECRET_KEY calls s in
       get_current_user SECRET_KEY later (Token.access_token issued) s2 =
         (Raise {| status_code := 401; detail := "Could not validate credentials";
                   headers := [("WWW-Authenticate", "Bearer")] |}, s2)).
Proof.
  intros Hs. apply reachable_wf in Hs as [Hu _].
  unfold login. run.
  destruct (PyDict.get (users_db s) _) as [row|] eqn:Hg; [|done].
  destruct (verify_password _ _ _) as [[|]| |] eqn:Hverify; simpl; [|done..].
  intros [= <- <-]. simpl.
  rewrite (users_wf_username _ _ _ Hu Hg).
  split; [done|]. split; [done|]. split; [done|].
  exists row. split; [done|]. split; [done|]. split.
  - intros calls later Hlater.
    rewrite get_current_user_fresh by done.
    by rewrite (serve_users_lookup pwd_context SECRET_KEY calls s _ row Hg).
  - intros calls later Hlater. unfold get_current_user, create_access_token. simpl.
    rewrite token_subject_encode. unfold Jwt.expired, minutes. simpl.
    destruct (Z.leb_spec (now + 60 * ACCESS_TOKEN_EXPIRE_MINUTES) later) as [_|Hgt]; [done|].
    unfold ACCESS_TOKEN_EXPIRE_MINUTES in Hgt. lia.
Qed.

Lemma login_token_authenticates_witness :
  reachable sample_context sample_key two_items_db ∧
  ∃ issued,
    login sample_context sample_key 120
      {| UserLogin.username := "alice"; UserLogin.password := "longenough1" |} two_items_db =
      (Return issued, two_items_db) ∧
    get_current_user sample_key 150 (Token.access_token issued) one_deleted_db =
      (Return alice_row, one_deleted_db).
Proof.
  assert (reachable sample_context sample_key two_items_db) as Hs
    by apply reachable_serve, reachable_initial.
  split; [exact Hs|]. eexists. split; [reflexivity|].
  destruct (login_token_authenticates sample_context sample_key two_items_db 120
              {| UserLogin.username := "alice"; UserLogin.password := "longenough1" |}
              _ _ Hs eq_refl) as (_ & _ & _ & row & Hrow & _ & Hvalid & _).
  assert (row = alice_row) as -> by (revert Hrow; intros [= <-]; reflexivity).
  apply (Hvalid [ mkcall 150 "" (DELETE_item 1 (bearer 120 "alice")) ] 150). lia.
Defined.

(** X3. A token that is validly signed and not expired, but names a user
    who is not stored (as after a restart, which empties [users_db]), is
    answered with status 401 and the detail "User not found"; nothing is
    written. *)
Theorem token_of_unknown_user SECRET_KEY s issued later username :
  PyDict.get (users_db s) username = None ->
  issued <= later < issued + 1800 ->
  get_current_user SECRET_KEY later
    (create_access_token SECRET_KEY issued
       {| Jwt.sub := Some username; Jwt.exp := None |} (Some (minutes 30))) s =
  (Raise {| status_code := 401; detail := "User not found";
            headers := [("WWW-Authenticate", "Bearer")] |}, s).
Proof.
  intros Hnone Hlater.
  pose proof (get_current_user_fresh SECRET_KEY issued later username s Hlater) as Hfresh.
  rewrite Hnone in Hfresh. exact Hfresh.
Qed.

Lemma token_of_unknown_user_witness :
  PyDict.get (users_db initial) "alice" = None ∧
  120 <= 200 < 120 + 1800 ∧
  get_current_user sample_key 200
    (create_access_token sample_key 120
       {| Jwt.sub := Some "alice"; Jwt.exp := None |} (Some (minutes 30))) initial =
    (Raise {| status_code := 401; detail := "User not found";
              headers := [("WWW-Authenticate", "Bearer")] |}, initial).
Proof.
  split; [reflexivity|]. split; [lia|].
  apply (token_of_unknown_user sample_key initial 120 200 "alice"); [reflexivity | lia].
Defined.

(** X4. When the credentials of a request are refused, for whatever reason,
    the dependency has written nothing, the status is 401 or 403, and each
    of the four protected routes ends with that same exception without
    touching the databases: nothing is created, changed or deleted without
    authentication. *)
Theorem refused_credentials_block_routes
    pwd_context SECRET_KEY now salt authorization s e s' :
  Depends_get_current_user SECRET_KEY now authorization s = (Raise e, s') ->
  s' = s ∧
  (status_code e = 401 ∨ status_code e = 403) ∧
  app pwd_context SECRET_KEY now salt (GET_users_me authorization) s = (Raise e, s) ∧
  (∀ body,
     app pwd_context SECRET_KEY now salt (POST_items authorization body) s = (Raise e, s)) ∧
  (∀ item_id body,
     app pwd_context SECRET_KEY now salt (PUT_item item_id authorization body) s =
       (Raise e, s)) ∧
  (∀ item_id,
     app pwd_context SECRET_KEY now salt (DELETE_item item_id authorization) s = (Raise e, s)).
Proof.
  intros Hrefused.
  destruct (Depends_get_current_user_cases SECRET_KEY now authorization s)
    as [(e0 & Hdep & Hstatus)|(username & current_user & Hdep & _)];
    rewrite Hdep in Hrefused; [|done].
  injection Hrefused as <- <-.
  split; [done|]. split; [done|].
  simpl. unfold bind. rewrite Hdep. done.
Qed.

Lemma refused_credentials_block_routes_witness :
  Depends_get_current_user sample_key 2000 (bearer 120 "alice") two_items_db =
    (Raise credentials_exception, two_items_db) ∧
  app sample_context sample_key 2000 "" (DELETE_item 1 (bearer 120 "alice")) two_items_db =
    (Raise credentials_exception, two_items_db).
Proof.
  split; [reflexivity|].
  destruct (refused_credentials_block_routes sample_context sample_key 2000 ""
              (bearer 120 "alice") two_items_db credentials_exception two_items_db eq_refl)
    as (_ & _ & _ & _ & _ & Hdelete).
  apply Hdelete.
Defined.

(** X5. Which route may write what: [POST /register] leaves [items_db] as
    it was; the three writing item routes leave [users_db] as it was; login
    and the four [GET] routes leave both databases as they were. *)
Theorem routes_frame pwd_context SECRET_KEY now salt req s :
  let s' := (app pwd_context SECRET_KEY now salt req s).2 in
  match req with
  | POST_register _ => items_db s' = items_db s
  | POST_items _ _ | PUT_item _ _ _ | DELETE_item _ _ => users_db s' = users_db s
  | POST_login _ | GET_users_me _ | GET_users | GET_items _ _ | GET_item _ => s' = s
  end.
Proof.
  intros s'. subst s'.
  assert (∀ r, (∀ body, r ≠ POST_register body) ->
            users_db (app pwd_context SECRET_KEY now salt r s).2 = users_db s) as Husers.
  { intros r Hr.
    destruct (app_users_db pwd_context SECRET_KEY now salt r s)
      as [Hsame|(body & row & Hreq & _)]; [exact Hsame | by destruct (Hr body)]. }
  destruct req; try (apply Husers; intros ?; discriminate).
  - simpl. rewrite bind_ret_state.
    by destruct (register_state pwd_context now salt body s) as [->|(row & _ & _ & _ & ->)].
  - simpl. by rewrite bind_ret_state, login_state.
  - simpl. destruct (Depends_bind_state SECRET_KEY now authorization
      (fun current_user => do r <- read_users_me current_user;
                           ret (User_json (response_model_User r))) s)
      as [->|[u ->]]; done.
  - done.
  - done.
  - simpl. rewrite bind_ret_state. unfold get_item. run. by destruct (PyDict.get _ _).
Qed.

(** X6. No request removes or alters a stored user: whatever requests are
    served, the users stored before are still stored afterwards, in the same
    order and with the same records, ahead of any user registered since. *)
Theorem stored_users_never_change pwd_context SECRET_KEY calls s :
  users_db s `prefix_of` users_db (serve pwd_context SECRET_KEY calls s) ∧
  ∀ username row,
    PyDict.get (users_db s) username = Some row ->
    PyDict.get (users_db (serve pwd_context SECRET_KEY calls s)) username = Some row.
Proof.
  split; [apply serve_users_prefix|].
  intros username row. apply serve_users_lookup.
Qed.

Lemma stored_users_never_change_witness :
  PyDict.get (users_db two_items_db) "bob" = Some bob_row ∧
  PyDict.get
    (users_db (serve sample_context sample_key
                 [ mkcall 300 "s3" (POST_register carol);
                   mkcall 310 "s4" (POST_register bob);
                   mkcall 320 "" (DELETE_item 2 (bearer 120 "alice")) ] two_items_db))
    "bob" = Some bob_row.
Proof.
  split; [reflexivity|].
  destruct (stored_users_never_change sample_context sample_key
              [ mkcall 300 "s3" (POST_register carol);
                mkcall 310 "s4" (POST_register bob);
                mkcall 320 "" (DELETE_item 2 (bearer 120 "alice")) ] two_items_db)
    as (_ & Hkept).
  apply Hkept. reflexivity.
Defined.

(** X7. In a reachable state [GET /users] needs no credentials and answers
    with the views of all stored users in the order of their registration;
    their ids are 1, 2, ..., n in that order, each is stored under its own
    username, and no username occurs twice. *)
Theorem users_listed_in_registration_order pwd_context SECRET_KEY now salt s :
  reachable pwd_context SECRET_KEY s ->
  app pwd_context SECRET_KEY now salt GET_users s =
    (Return (JArray (map (fun row => User_json (response_model_User row))
                       (PyDict.values (users_db s)))), s) ∧
  UserRow.id <$> PyDict.values (users_db s) = seqZ 1 (PyDict.len (users_db s)) ∧
  UserRow.username <$> PyDict.values (users_db s) = PyDict.keys (users_db s) ∧
  NoDup (PyDict.keys (users_db s)).
Proof.
  intros Hs. apply reachable_wf in Hs as [[Hnd Hrows] _].
  split; [reflexivity|]. split; [|split; [|done]].
  - apply list_eq. intros i. unfold PyDict.values, PyDict.len.
    rewrite !list_lookup_fmap.
    destruct (@lookup nat (string * UserRow.t) (list (string * UserRow.t)) _ i (users_db s))
      as [[k row]|] eqn:Hi; simpl.
    + destruct (Hrows _ _ _ Hi) as [_ ->]. apply lookup_lt_Some in Hi.
      rewrite lookup_seqZ_lt by lia. f_equal. lia.
    + apply lookup_ge_None in Hi. symmetry. apply lookup_seqZ_ge. lia.
  - apply list_eq. intros i. unfold PyDict.values, PyDict.keys.
    rewrite !list_lookup_fmap.
    destruct (@lookup nat (string * UserRow.t) (list (string * UserRow.t)) _ i (users_db s))
      as [[k row]|] eqn:Hi; simpl; [|done].
    by destruct (Hrows _ _ _ Hi) as [-> _].
Qed.

Lemma users_listed_in_registration_order_witness :
  reachable sample_context sample_key two_items_db ∧
  UserRow.id <$> PyDict.values (users_db two_items_db) = [1; 2] ∧
  UserRow.username <$> PyDict.values (users_db two_items_db) = ["alice"; "bob"].
Proof.
  assert (reachable sample_context sample_key two_items_db) as Hs
    by apply reachable_serve, reachable_initial.
  split; [exact Hs|].
  destruct (users_listed_in_registration_order sample_context sample_key 0 "" two_items_db Hs)
    as (_ & Hids & Hnames & _).
  split; [exact Hids | exact Hnames].
Defined.

(** ** Items and their owners *)

Lemma bind_Return {A B : Type} (m : M A) (f : A -> M B) s a s1 :
  m s = (Return a, s1) -> bind m f s = f a s1.
Proof. intros Hm. unfold bind. by rewrite Hm. Qed.

Lemma bind_Raise {A B : Type} (m : M A) (f : A -> M B) s e s1 :
  m s = (Raise e, s1) -> bind m f s = (Raise e, s1).
Proof. intros Hm. unfold bind. by rewrite Hm. Qed.

Lemma update_item_cases item_id item current_user s :
  (update_item item_id item current_user s).2 = s ∨
  ∃ stored,
    PyDict.get (items_db s) item_id = Some stored ∧
    (update_item item_id item current_user s).2 =
      {| users_db := users_db s;
         items_db :=
           PyDict.set (items_db s) item_id
             {| Item.title := ItemCreate.title item;
                Item.description := ItemCreate.description item;
                Item.price := ItemCreate.price item;
                Item.id := item_id;
                Item.owner_id := UserRow.id current_user;
                Item.created_at := Item.created_at stored |} |}.
Proof.
  unfold update_item. run. destruct (PyDict.get _ _) as [stored|]; simpl; [|by left].
  case_bool_decide; simpl; [|by left]. right. by exists stored.
Qed.

(** A request changes [items_db] only through one of the three writing
    handlers, called for a stored user. *)
Lemma app_items_db pwd_context SECRET_KEY now salt req s :
  items_db (app pwd_context SECRET_KEY now salt req s).2 = items_db s ∨
  ∃ username current_user,
    PyDict.get (users_db s) username = Some current_user ∧
    ((∃ body,
        items_db (app pwd_context SECRET_KEY now salt req s).2 =
          items_db (create_item now body current_user s).2) ∨
     (∃ item_id body,
        items_db (app pwd_context SECRET_KEY now salt req s).2 =
          items_db (update_item item_id body current_user s).2) ∨
     (∃ item_id,
        items_db (app pwd_context SECRET_KEY now salt req s).2 =
          items_db (delete_item item_id current_user s).2)).
Proof.
  destruct req; simpl.
  - left. rewrite bind_ret_state.
    by destruct (register_state pwd_context now salt body s) as [->|(row & _ & _ & _ & ->)].
  - left. by rewrite bind_ret_state, login_state.
  - left. destruct (Depends_bind_state SECRET_KEY now authorization
      (fun current_user => do r <- read_users_me current_user;
                           ret (User_json (response_model_User r))) s)
      as [->|[u ->]]; done.
  - by left.
  - destruct (Depends_get_current_user_cases SECRET_KEY now authorization s)
      as [(e & Hdep & _)|(username & current_user & Hdep & Hstored)].
    + left. by rewrite (bind_Raise _ _ _ _ _ Hdep).
    + right. exists username, current_user. split; [done|]. left. exists body.
      by rewrite (bind_Return _ _ _ _ _ Hdep), bind_ret_state.
  - by left.
  - left. rewrite bind_ret_state. unfold get_item. run. by destruct (PyDict.get _ _).
  - destruct (Depends_get_current_user_cases SECRET_KEY now authorization s)
      as [(e & Hdep & _)|(username & current_user & Hdep & Hstored)].
    + left. by rewrite (bind_Raise _ _ _ _ _ Hdep).
    + right. exists username, current_user. split; [done|]. right; left.
      exists item_id, body.
      by rewrite (bind_Return _ _ _ _ _ Hdep), bind_ret_state.
  - destruct (Depends_get_current_user_cases SECRET_KEY now authorization s)
      as [(e & Hdep & _)|(username & current_user & Hdep & Hstored)].
    + left. by rewrite (bind_Raise _ _ _ _ _ Hdep).
    + right. exists username, current_user. split; [done|]. right; right.
      exists item_id.
      by rewrite (bind_Return _ _ _ _ _ Hdep), bind_ret_state.
Qed.

Lemma items_owned_app pwd_context SECRET_KEY now salt req s :
  items_owned s -> items_owned (app pwd_context SECRET_KEY now salt req s).2.
Proof.
  intros Hown.
  assert (∀ u row, PyDict.get (users_db s) u = Some row ->
            PyDict.get (users_db (app pwd_context SECRET_KEY now salt req s).2) u = Some row)
    as Hkeep.
  { intros u row Hg.
    destruct (app_users_db pwd_context SECRET_KEY now salt req s)
      as [->|(body & new & _ & _ & ->)]; [done | by apply get_app_Some]. }
  assert (∀ k item, (k, item) ∈ items_db s ->
            1 <= k ∧ ∃ username row,
              PyDict.get (users_db (app pwd_context SECRET_KEY now salt req s).2) username
                = Some row ∧ UserRow.id row = Item.owner_id item) as Hold.
  { intros k item Hin. destruct (Hown k item Hin) as (Hk & u & row & Hg & Hid).
    split; [done|]. exists u, row. split; [by apply Hkeep | done]. }
  intros k item Hin.
  destruct (app_items_db pwd_context SECRET_KEY now salt req s)
    as [Hsame|(username & current_user & Hstored & [(body & Hnew)|[(i & body & Hnew)|(i & Hnew)]])].
  - rewrite Hsame in Hin. by apply Hold.
  - rewrite Hnew, create_item_state in Hin. simpl in Hin.
    apply elem_of_set in Hin as [[= -> ->]|Hin]; [|by apply Hold].
    split; [unfold PyDict.len; lia|].
    exists username, current_user. split; [by apply Hkeep | done].
  - rewrite Hnew in Hin.
    destruct (update_item_cases i body current_user s) as [Heq|(stored & Hg & Heq)];
      rewrite Heq in Hin; [by apply Hold|].
    simpl in Hin. apply elem_of_set in Hin as [[= -> ->]|Hin]; [|by apply Hold].
    split; [apply (Hown i stored); by apply get_Some_elem_of|].
    exists username, current_user. split; [by apply Hkeep | done].
  - rewrite Hnew in Hin.
    destruct (delete_item_state i current_user s) as [Heq|Heq];
      rewrite Heq in Hin; [by apply Hold|].
    simpl in Hin. apply elem_of_del in Hin. by apply Hold.
Qed.

Lemma reachable_owned pwd_context SECRET_KEY s :
  reachable pwd_context SECRET_KEY s -> items_owned s.
Proof.
  induction 1 as [|s now salt req _ IH]; [|by apply items_owned_app].
  intros k item Hin. by apply elem_of_nil in Hin.
Qed.

(** X8. In a reachable state every stored item is stored under its own id,
    that id is at least 1, and its owner is a stored user: [owner_id] is the
    id of some record of [users_db], hence between 1 and the number of
    users. *)
Theorem stored_items_have_owners pwd_context SECRET_KEY s item_id item :
  reachable pwd_context SECRET_KEY s ->
  PyDict.get (items_db s) item_id = Some item ->
  Item.id item = item_id ∧
  1 <= item_id ∧
  1 <= Item.owner_id item <= PyDict.len (users_db s) ∧
  ∃ username row,
    PyDict.get (users_db s) username = Some row ∧
    UserRow.id row = Item.owner_id item.
Proof.
  intros Hs Hg. pose proof (reachable_owned _ _ _ Hs) as Hown.
  apply reachable_wf in Hs as [Hu [_ Hids]].
  apply get_Some_elem_of in Hg.
  destruct (Hown _ _ Hg) as (Hk & username & row & Hrow & Hid).
  split; [by apply Hids|]. split; [done|]. split.
  - rewrite <- Hid. by apply (users_wf_id_range _ username).
  - by exists username, row.
Qed.

Lemma stored_items_have_owners_witness :
  reachable sample_context sample_key one_deleted_db ∧
  PyDict.get (items_db one_deleted_db) 2 = Some gadget_row ∧
  1 <= Item.owner_id gadget_row <= PyDict.len (users_db one_deleted_db).
Proof.
  assert (reachable sample_context sample_key one_deleted_db) as Hs
    by apply reachable_serve, reachable_initial.
  split; [exact Hs|]. split; [reflexivity|].
  destruct (stored_items_have_owners sample_context sample_key one_deleted_db 2 gadget_row Hs)
    as (_ & _ & Hrange & _); [reflexivity | exact Hrange].
Defined.

(** ** Creating, updating and deleting items *)

Lemma length_del {K V : Type} `{EqDecision K} (d : PyDict.t K V) k v :
  PyDict.get d k = Some v -> S (length (PyDict.del d k)) = length d.
Proof.
  induction d as [|[k' v'] d IH]; simpl; [done|].
  destruct (decide (k' = k)); [done|]. intros Hg. simpl. by rewrite IH.
Qed.

(** X9. [create_item] always succeeds.  The item it returns takes its
    title, description and price from the request, the requester as owner
    and the clock as creation time; it is stored under its id, where
    [get_item] finds it, and no other id and no user is touched.  If the id
    was not stored before, the item goes last in the listing order and the
    number of stored items grows by one; if it was, the number and the order
    of the keys stay as they were. *)
Theorem create_item_contract now item current_user s :
  ∃ row s',
    create_item now item current_user s = (Return row, s') ∧
    row = {| Item.title := ItemCreate.title item;
             Item.description := ItemCreate.description item;
             Item.price := ItemCreate.price item;
             Item.id := PyDict.len (items_db s) + 1;
             Item.owner_id := UserRow.id current_user;
             Item.created_at := now |} ∧
    get_item (Item.id row) s' = (Return row, s') ∧
    (∀ j, j ≠ Item.id row -> PyDict.get (items_db s') j = PyDict.get (items_db s) j) ∧
    users_db s' = users_db s ∧
    (PyDict.get (items_db s) (Item.id row) = None ->
       PyDict.values (items_db s') = PyDict.values (items_db s) ++ [row] ∧
       PyDict.len (items_db s') = PyDict.len (items_db s) + 1) ∧
    (is_Some (PyDict.get (items_db s) (Item.id row)) ->
       PyDict.keys (items_db s') = PyDict.keys (items_db s) ∧
       PyDict.len (items_db s') = PyDict.len (items_db s)).
Proof.
  eexists _, _. split; [apply create_item_state|]. simpl.
  split; [done|]. split; [|split; [|split; [done|split]]].
  - unfold get_item. run. by rewrite get_set_eq.
  - intros j Hj. by apply get_set_ne.
  - intros Hfresh. rewrite set_absent by done. unfold PyDict.values, PyDict.len.
    rewrite fmap_app, length_app. simpl. split; [done | lia].
  - intros Hstored. split; [by apply keys_set_present|].
    unfold PyDict.len. by rewrite length_set_present.
Qed.

Lemma create_item_contract_witness :
  PyDict.get (items_db two_items_db) 3 = None ∧
  ∃ row s',
    create_item 200 gizmo bob_row two_items_db = (Return row, s') ∧
    Item.id row = 3 ∧
    PyDict.values (items_db s') = [widget_row; gadget_row; row].
Proof.
  split; [reflexivity|].
  destruct (create_item_contract 200 gizmo bob_row two_items_db)
    as (row & s' & Hrun & Hrow & _ & _ & _ & Hfresh & _).
  exists row, s'. split; [exact Hrun|]. split; [by rewrite Hrow|].
  destruct Hfresh as [Hvalues _]; [by rewrite Hrow|]. exact Hvalues.
Defined.

(** X10. As long as the stored ids are 1, 2, ..., n in listing order (no
    item has been deleted), the id that [create_item] assigns is not in use,
    the new item goes last, and the stored ids are 1, 2, ..., n + 1
    afterwards. *)
Theorem create_item_sequential_ids now item current_user s :
  PyDict.keys (items_db s) = seqZ 1 (PyDict.len (items_db s)) ->
  ∃ row s',
    create_item now item current_user s = (Return row, s') ∧
    PyDict.get (items_db s) (Item.id row) = None ∧
    PyDict.values (items_db s') = PyDict.values (items_db s) ++ [row] ∧
    PyDict.keys (items_db s') = seqZ 1 (PyDict.len (items_db s')).
Proof.
  intros Hdense. eexists _, _. split; [apply create_item_state|]. simpl.
  assert (PyDict.get (items_db s) (PyDict.len (items_db s) + 1) = None) as Hfresh.
  { apply get_None_keys. rewrite Hdense. intros Hin%elem_of_seqZ. lia. }
  split; [done|]. rewrite set_absent by done.
  unfold PyDict.values, PyDict.keys, PyDict.len in *.
  rewrite !fmap_app, length_app. simpl. split; [done|].
  rewrite Hdense. replace (length (items_db s) + 1)%nat with (S (length (items_db s))) by lia.
  rewrite seqZ_S. do 2 f_equal. lia.
Qed.

Lemma create_item_sequential_ids_witness :
  PyDict.keys (items_db two_items_db) = seqZ 1 (PyDict.len (items_db two_items_db)) ∧
  ∃ row s',
    create_item 200 gizmo bob_row two_items_db = (Return row, s') ∧
    PyDict.keys (items_db s') = [1; 2; 3].
Proof.
  split; [reflexivity|].
  destruct (create_item_sequential_ids 200 gizmo bob_row two_items_db eq_refl)
    as (row & s' & Hrun & _ & _ & Hkeys).
  exists row, s'. split; [exact Hrun|].
  rewrite Hkeys. revert Hrun. intros [= _ <-]. reflexivity.
Defined.

(** X11. When the id that [create_item] assigns is not in use, deleting the
    created item as its owner right away succeeds and gives back exactly the
    databases from before the creation. *)
Theorem create_then_delete_restores now item current_user s :
  PyDict.get (items_db s) (PyDict.len (items_db s) + 1) = None ->
  ∃ row s',
    create_item now item current_user s = (Return row, s') ∧
    delete_item (Item.id row) current_user s' = (Return "Item deleted successfully", s).
Proof.
  intros Hfresh. eexists _, _. split; [apply create_item_state|].
  unfold delete_item. run. rewrite get_set_eq. simpl.
  rewrite bool_decide_true by done. simpl.
  rewrite set_absent, del_append_absent by done. by destruct s.
Qed.

Lemma create_then_delete_restores_witness :
  PyDict.get (items_db two_items_db) (PyDict.len (items_db two_items_db) + 1) = None ∧
  delete_item 3 bob_row (create_item 200 gizmo bob_row two_items_db).2 =
    (Return "Item deleted successfully", two_items_db).
Proof.
  split; [reflexivity|].
  destruct (create_then_delete_restores 200 gizmo bob_row two_items_db eq_refl)
    as (row & s' & Hrun & Hdelete).
  revert Hrun Hdelete. intros [= <- <-]. exact (fun H => H).
Defined.

(** X12. [update_item] is idempotent: after a successful update, the same
    update by the same user succeeds again with the same result and changes
    nothing, and [get_item] returns the updated item. *)
Theorem update_item_idempotent item_id body current_user s updated s' :
  update_item item_id body current_user s = (Return updated, s') ->
  update_item item_id body current_user s' = (Return updated, s') ∧
  get_item item_id s' = (Return updated, s').
Proof.
  unfold update_item, get_item. run.
  destruct (PyDict.get (items_db s) item_id) as [stored|]; simpl; [|done].
  case_bool_decide; simpl; [|done].
  intros [= <- <-]. simpl. rewrite get_set_eq. simpl.
  rewrite bool_decide_true by done. simpl. by rewrite set_set.
Qed.

Lemma update_item_idempotent_witness :
  ∃ updated s',
    update_item 1 gizmo alice_row two_items_db = (Return updated, s') ∧
    update_item 1 gizmo alice_row s' = (Return updated, s').
Proof.
  destruct (update_item 1 gizmo alice_row two_items_db) as [[updated|e|exc] s'] eqn:Hrun;
    [|discriminate Hrun..].
  exists updated, s'. split; [reflexivity|].
  apply (update_item_idempotent 1 gizmo alice_row two_items_db). exact Hrun.
Defined.

(** X13. In a reachable state, once [delete_item] has succeeded the stored
    items are one fewer, and on the deleted id [update_item] and
    [delete_item] fail with status 404 for every requester, the former owner
    included: a deletion cannot be repeated. *)
Theorem deleted_item_is_gone pwd_context SECRET_KEY s item_id current_user message s' :
  reachable pwd_context SECRET_KEY s ->
  delete_item item_id current_user s = (Return message, s') ->
  let not_found := {| status_code := 404; detail := "Item not found"; headers := [] |} in
  PyDict.len (items_db s') = PyDict.len (items_db s) - 1 ∧
  ∀ requester body,
    update_item item_id body requester s' = (Raise not_found, s') ∧
    delete_item item_id requester s' = (Raise not_found, s').
Proof.
  intros Hs. apply reachable_wf in Hs as [_ [Hnd _]].
  unfold delete_item at 1. run.
  destruct (PyDict.get (items_db s) item_id) as [stored|] eqn:Hg; simpl; [|done].
  case_bool_decide; simpl; [|done].
  intros [= <- <-]. simpl. split.
  - unfold PyDict.len. rewrite <- (length_del _ _ _ Hg). lia.
  - intros requester body. unfold update_item, delete_item. run.
    by rewrite (get_del_eq (items_db s) item_id Hnd).
Qed.

Lemma deleted_item_is_gone_witness :
  reachable sample_context sample_key two_items_db ∧
  ∃ s',
    delete_item 1 alice_row two_items_db = (Return "Item deleted successfully", s') ∧
    PyDict.len (items_db s') = 1 ∧
    delete_item 1 alice_row s' =
      (Raise {| status_code := 404; detail := "Item not found"; headers := [] |}, s').
Proof.
  assert (reachable sample_context sample_key two_items_db) as Hs
    by apply reachable_serve, reachable_initial.
  split; [exact Hs|].
  destruct (delete_item 1 alice_row two_items_db) as [[message|e|exc] s'] eqn:Hrun;
    [|discriminate Hrun..].
  assert (message = "Item deleted successfully") as -> by (revert Hrun; by intros [= <- _]).
  exists s'. split; [reflexivity|].
  destruct (deleted_item_is_gone sample_context sample_key two_items_db 1 alice_row
              _ _ Hs Hrun) as (Hlen & Hgone).
  split; [exact Hlen|]. destruct (Hgone alice_row gizmo) as (_ & Hdelete). exact Hdelete.
Defined.

(** ** Listing with negative bounds *)

Lemma py_slice_negative_start {A : Type} (l : list A) (k limit : Z) :
  1 <= k <= Z.of_nat (length l) -> 0 <= limit ->
  py_slice l (- k) (- k + limit) =
    take (Z.to_nat (if limit <? k then limit else limit - Z.of_nat (length l)))
         (drop (Z.to_nat (Z.of_nat (length l) - k)) l).
Proof.
  intros Hk Hlimit. unfold py_slice, slice_index.
  destruct (Z.ltb_spec (- k) 0) as [_|?]; [|lia].
  rewrite (Z.max_l (- k + Z.of_nat (length l)) 0) by lia.
  replace (- k + Z.of_nat (length l)) with (Z.of_nat (length l) - k) by lia.
  destruct (Z.ltb_spec limit k) as [Hlt|Hge].
  - destruct (Z.ltb_spec (- k + limit) 0) as [_|?]; [|lia].
    rewrite Z.max_l by lia. f_equal. lia.
  - destruct (Z.ltb_spec (- k + limit) 0) as [?|_]; [lia|].
    destruct (decide (- k + limit <= Z.of_nat (length l))) as [Hfit|Hover].
    + rewrite Z.min_l by done. f_equal. lia.
    + rewrite Z.min_r by lia.
      rewrite !take_ge; [done | |]; rewrite length_drop; lia.
Qed.

Lemma py_slice_negative_length {A : Type} (l : list A) (skip limit : Z) :
  0 <= skip -> limit < 0 ->
  py_slice l skip (skip + limit) =
    if 0 <=? skip + limit then []
    else take (Z.to_nat (limit + Z.of_nat (length l))) (drop (Z.to_nat skip) l).
Proof.
  intros Hskip Hlimit. unfold py_slice, slice_index.
  destruct (Z.ltb_spec skip 0) as [?|_]; [lia|].
  destruct (Z.leb_spec 0 (skip + limit)) as [Hge|Hlt].
  - destruct (Z.ltb_spec (skip + limit) 0) as [?|_]; [lia|].
    replace (Z.to_nat _) with 0%nat by lia. done.
  - destruct (Z.ltb_spec (skip + limit) 0) as [_|?]; [|lia].
    destruct (decide (skip <= Z.of_nat (length l))) as [Hin|Hout].
    + rewrite Z.min_l by done. f_equal. lia.
    + rewrite !drop_ge; [by rewrite !take_nil | lia |].
      rewrite Z.min_r by lia. lia.
Qed.

(** X14. [get_items] with a negative [skip = -k], for [k] between 1 and the
    number [n] of stored items, starts at the [k]-th item from the end.  For
    [0 <= limit < k] the page holds the next [limit] items; for
    [limit >= k] it holds [limit - n] of them, so it is empty whenever
    [k <= limit <= n]. *)
Theorem get_items_negative_skip s k limit :
  let stored := PyDict.values (items_db s) in
  let n := PyDict.len (items_db s) in
  1 <= k <= n -> 0 <= limit ->
  get_items (- k) limit s =
    (Return (take (Z.to_nat (if limit <? k then limit else limit - n))
                  (drop (Z.to_nat (n - k)) stored)), s) ∧
  (k <= limit <= n -> get_items (- k) limit s = (Return [], s)).
Proof.
  intros stored n Hk Hlimit.
  assert (Z.of_nat (length stored) = n) as Hn.
  { subst stored n. unfold PyDict.values, PyDict.len. by rewrite length_fmap. }
  assert (get_items (- k) limit s =
    (Return (take (Z.to_nat (if limit <? k then limit else limit - n))
                  (drop (Z.to_nat (n - k)) stored)), s)) as Hpage.
  { unfold get_items. run. fold stored.
    rewrite py_slice_negative_start by lia. by rewrite Hn. }
  split; [exact Hpage|].
  intros Hrange. rewrite Hpage.
  destruct (Z.ltb_spec limit k) as [?|_]; [lia|].
  replace (Z.to_nat (limit - n)) with 0%nat by lia. done.
Qed.

Lemma get_items_negative_skip_witness :
  1 <= 2 <= PyDict.len (items_db two_items_db) ∧
  get_items (-2) 1 two_items_db = (Return [widget_row], two_items_db) ∧
  get_items (-2) 2 two_items_db = (Return [], two_items_db) ∧
  get_items (-2) 3 two_items_db = (Return [widget_row], two_items_db).
Proof.
  split; [by vm_compute|].
  split; [|split].
  - destruct (get_items_negative_skip two_items_db 2 1) as (Hpage & _);
      [by vm_compute | lia | exact Hpage].
  - destruct (get_items_negative_skip two_items_db 2 2) as (_ & Hempty);
      [by vm_compute | lia |]. apply Hempty. by vm_compute.
  - destruct (get_items_negative_skip two_items_db 2 3) as (Hpage & _);
      [by vm_compute | lia | exact Hpage].
Defined.

(** X15. [get_items] with [skip >= 0] and a negative [limit] returns
    nothing when [skip + limit >= 0]; when [skip + limit < 0] the end of the
    slice is counted from the end of the list and the page holds the
    [n + limit] items that follow position [skip] (as many as exist), where
    [n] is the number of stored items. *)
Theorem get_items_negative_limit s skip limit :
  let stored := PyDict.values (items_db s) in
  let n := PyDict.len (items_db s) in
  0 <= skip -> limit < 0 ->
  get_items skip limit s =
    (Return (if 0 <=? skip + limit then []
             else take (Z.to_nat (limit + n)) (drop (Z.to_nat skip) stored)), s).
Proof.
  intros stored n Hskip Hlimit.
  assert (Z.of_nat (length stored) = n) as Hn.
  { subst stored n. unfold PyDict.values, PyDict.len. by rewrite length_fmap. }
  unfold get_items. run. fold stored.
  rewrite py_slice_negative_length by lia. by rewrite Hn.
Qed.

Lemma get_items_negative_limit_witness :
  0 <= 0 ∧ -1 < 0 ∧
  get_items 0 (-1) two_items_db = (Return [widget_row], two_items_db) ∧
  get_items 1 (-1) two_items_db = (Return [], two_items_db).
Proof.
  split; [lia|]. split; [lia|]. split.
  - apply (get_items_negative_limit two_items_db 0 (-1)); lia.
  - apply (get_items_negative_limit two_items_db 1 (-1)); lia.
Defined.
